(** * A shallow embedding of [tools/ffmpeg.py], the FFVVC conformance runner

    The runner feeds bitstreams to an external decoder, reads the MD5 digest
    the decoder prints and compares it with the digest recorded in the
    [md5.txt] manifest that sits next to the bitstream.

    Python text is modelled as a list of characters whose code points are
    below 256; the file system, the decoder process and the console are an
    explicit [world] threaded through a small state-and-exception monad. *)

From Stdlib Require Import ZArith NArith Ascii String DecimalString.
From stdpp Require Import base tactics decidable option list numbers strings.

Local Open Scope Z_scope.
Local Open Scope list_scope.

(** ** Python strings *)

Module Py.

Definition str := list ascii.

(** A literal of the source. *)
Definition s (lit : string) : str := list_ascii_of_string lit.

Definition LF : ascii := ascii_of_N 10.

(** [str.isspace] on one character: the ASCII white space of
    [_Py_ascii_whitespace] (TAB LF VT FF CR FS GS RS US SPACE) together
    with NEL and NBSP, the other white space below 256. *)
Definition isspace (c : ascii) : bool :=
  let n := N_of_ascii c in
  ((9 <=? n) && (n <=? 13) || (28 <=? n) && (n <=? 32)
   || (n =? 133) || (n =? 160))%N.

(** [str.lower] on one character below 256: A-Z and the Latin-1 capitals
    (all of 0xC0-0xDE but the multiplication sign) move 32 up. *)
Definition lower_char (c : ascii) : ascii :=
  let n := N_of_ascii c in
  if ((65 <=? n) && (n <=? 90)
      || (192 <=? n) && (n <=? 222) && negb (n =? 215))%N
  then ascii_of_N (n + 32) else c.

Definition lower (t : str) : str := map lower_char t.

Definition startswith (t p : str) : bool :=
  bool_decide (take (length p) t = p).

Definition endswith (t suf : str) : bool :=
  (length suf <=? length t)%nat
  && bool_decide (drop (length t - length suf) t = suf).

(** [t.rfind(c)] for a one-character [c]: the highest index holding [c],
    or -1. *)
Fixpoint rfind (c : ascii) (t : str) : Z :=
  match t with
  | [] => -1
  | x :: t' =>
      let r := rfind c t' in
      if 0 <=? r then r + 1
      else if bool_decide (x = c) then 0 else -1
  end.

(** Slices [t[:i]], [t[i:]] and [t[i:j]] for indices that are not
    negative (the only ones the program builds). *)
Definition upto (i : Z) (t : str) : str := take (Z.to_nat i) t.
Definition from (i : Z) (t : str) : str := drop (Z.to_nat i) t.
Definition slice (i j : Z) (t : str) : str := from i (upto j t).

(** [t.lstrip()], [t.rstrip()] and [t.strip()] without argument. *)
Fixpoint lstrip (t : str) : str :=
  match t with
  | c :: t' => if isspace c then lstrip t' else t
  | [] => []
  end.

Definition rstrip (t : str) : str := rev (lstrip (rev t)).

Definition strip (t : str) : str := rstrip (lstrip t).

(** [t.rstrip("/")]: trailing occurrences of one character removed. *)
Fixpoint lstrip_char (c : ascii) (t : str) : str :=
  match t with
  | x :: t' => if bool_decide (x = c) then lstrip_char c t' else t
  | [] => []
  end.

Definition rstrip_char (c : ascii) (t : str) : str :=
  rev (lstrip_char c (rev t)).

(** [t.split()] without argument: the maximal runs of characters that are
    not white space, in order. *)
Fixpoint split (t : str) : list str :=
  match t with
  | [] => []
  | c :: t' =>
      if isspace c then split t'
      else
        match t' with
        | [] => [[c]]
        | d :: _ =>
            if isspace d then [c] :: split t'
            else
              match split t' with
              | w :: ws => (c :: w) :: ws
              | [] => [[c]]
              end
        end
  end.

(** [t.replace(old, "")] for a non-empty [old]: a scan from the left that
    drops every occurrence it meets and resumes after it.  [skip] counts the
    characters of the current occurrence still to drop. *)
Fixpoint remove_from (skip : nat) (old t : str) : str :=
  match t with
  | [] => []
  | c :: t' =>
      match skip with
      | S k => remove_from k old t'
      | O =>
          if startswith t old then remove_from (length old - 1) old t'
          else c :: remove_from 0 old t'
      end
  end.

Definition remove (old t : str) : str := remove_from 0 old t.

(** [f.readlines()] on the text of a file opened in text mode: the text cut
    after every line feed, each line keeping its line feed. *)
Fixpoint readlines (t : str) : list str :=
  match t with
  | [] => []
  | c :: t' =>
      if bool_decide (c = LF) then [c] :: readlines t'
      else
        match readlines t' with
        | l :: ls => (c :: l) :: ls
        | [] => [[c]]
        end
  end.

End Py.

Import Py.

(** ** [os.path] on POSIX ([posixpath] and [genericpath._splitext]) *)

Module PosixPath.

Definition sep : ascii := "/"%char.
Definition extsep : ascii := "."%char.

Definition basename (p : str) : str :=
  let i := rfind sep p + 1 in
  from i p.

Definition dirname (p : str) : str :=
  let i := rfind sep p + 1 in
  let head := upto i p in
  if bool_decide (head <> []) && negb (bool_decide (head = replicate (length head) sep))
  then rstrip_char sep head
  else head.

(** [join(a, b)] with one component [b]. *)
Definition join (a b : str) : str :=
  if startswith b [sep] then b
  else if bool_decide (a = []) || endswith a [sep] then a ++ b
  else a ++ [sep] ++ b.

(** [splitext(p)]: the extension starts at the last dot of the last path
    component, unless only dots come before it in that component. *)
Definition splitext (p : str) : str * str :=
  let sepIndex := rfind sep p in
  let dotIndex := rfind extsep p in
  if (sepIndex <? dotIndex)
     && existsb (fun c => negb (bool_decide (c = extsep)))
                (slice (sepIndex + 1) dotIndex p)
  then (upto dotIndex p, from dotIndex p)
  else (p, []).

End PosixPath.

(** ** Exceptions, results and the world *)

(** [str(n)] for an integer. *)
Definition str_of_int (n : Z) : str :=
  s (NilEmpty.string_of_int (Z.to_int n)).

(** The exceptions the program can meet.  An [OSError] stands for every
    subclass but [FileNotFoundError], which the program tells apart
    (PermissionError, IsADirectoryError, NotADirectoryError, ...).
    [filename_r] is the file name as [%r] prints it and [cmd_s] the command
    as [%s] prints it. *)
Inductive exn : Type :=
| FileNotFoundError (errno : Z) (strerror filename_r : str)
| OSError (errno : Z) (strerror filename_r : str)
| TimeoutExpired (cmd_s : str) (timeout : Z)
| UnicodeDecodeError (msg : str)
| ValueError (msg : str)
| StopIteration
| IndexError (msg : str).

(** [str(e)]: [OSError.__str__] gives "[Errno n] strerror: 'filename'",
    [subprocess.TimeoutExpired.__str__] gives
    "Command '...' timed out after t seconds"; the others print their
    argument. *)
Definition str_of_exn (e : exn) : str :=
  match e with
  | FileNotFoundError n m f | OSError n m f =>
      s "[Errno " ++ str_of_int n ++ s "] " ++ m ++ s ": " ++ f
  | TimeoutExpired c t =>
      s "Command '" ++ c ++ s "' timed out after " ++ str_of_int t ++ s " seconds"
  | UnicodeDecodeError m | ValueError m | IndexError m => m
  | StopIteration => []
  end.

(** [except Exception]: every exception above derives from [Exception]. *)
Definition is_Exception (e : exn) : bool := true.

(** What a call into the surroundings does: it returns or it raises. *)
Inductive tried (A : Type) : Type :=
| Ok (a : A)
| Fails (e : exn).
Arguments Ok {A} a.
Arguments Fails {A} e.

(** How a piece of the program ends: it returns, it raises, or it leaves
    the interpreter through [SystemExit], which [except Exception] does not
    catch. *)
Inductive result (A : Type) : Type :=
| Return (a : A)
| Raise (e : exn)
| Exit (code : Z).
Arguments Return {A} a.
Arguments Raise {A} e.
Arguments Exit {A} code.

(** What [subprocess.run(..., capture_output=True, timeout=t)] hands back.
    [stdout_decode] is the outcome of [o.stdout.decode()]: the text, or the
    [UnicodeDecodeError] it raises. *)
Record CompletedProcess : Type := {
  returncode : Z;
  stdout_decode : tried str;
  stderr : str
}.

Inductive outcome : Type := PASSED | FAILED | SKIPPED.

(** The integers behind the three names, used as list indices. *)
Definition index (o : outcome) : nat :=
  match o with PASSED => 0 | FAILED => 1 | SKIPPED => 2 end%nat.

#[global] Instance outcome_eq_dec : EqDecision outcome.
Proof. solve_decision. Defined.

(** A finished task of the pool: what [future.result()] does. *)
Record future : Type := { fut_result : result outcome }.

(** One line on the console. *)
Inductive printed : Type :=
| Out (t : str)            (* print(t) *)
| OutBytes (b : str)       (* print(b) for a bytes object *)
| Err (t : str).           (* print(t, file=sys.stderr) *)

(** What the program reads from its surroundings and never changes. *)
Record environment : Type := {
  (* open(p).readlines(): the text of p in text mode, or what open or the
     read raise *)
  read_text : str -> tried str;
  (* os.path.isfile *)
  isfile : str -> bool;
  (* os.walk(p): the (root, dirs, files) triples in the order met *)
  walk : str -> list (str * list str * list str);
  (* subprocess.run(argv, capture_output=True, timeout=t) *)
  subprocess_run : list str -> Z -> tried CompletedProcess;
  (* concurrent.futures.as_completed: the order in which tasks finish *)
  as_completed : list (future * str) -> list (future * str)
}.

(** The environment, the console and the two module-level accumulators. *)
Record world : Type := {
  env : environment;
  console : list printed;
  count : list Z;
  summary : list (list str)
}.

Definition boot (e : environment) : world :=
  {| env := e; console := []; count := [0; 0; 0]; summary := [[]; []; []] |}.

(** Computations: the world is threaded, and what was printed or counted
    before an exception stays. *)
Definition M (A : Type) : Type := world -> result A * world.

Definition ret {A} (a : A) : M A := fun w => (Return a, w).

Definition raise {A} (e : exn) : M A := fun w => (Raise e, w).

Definition bind {A B} (c : M A) (k : A -> M B) : M B :=
  fun w =>
    match c w with
    | (Return a, w') => k a w'
    | (Raise e, w') => (Raise e, w')
    | (Exit n, w') => (Exit n, w')
    end.

(** [try: c  except <classes> as e: h e]; [catches] tells the classes. *)
Definition try_except {A} (c : M A) (catches : exn -> bool) (h : exn -> M A) : M A :=
  fun w =>
    match c w with
    | (Return a, w') => (Return a, w')
    | (Raise e, w') => if catches e then h e w' else (Raise e, w')
    | (Exit n, w') => (Exit n, w')
    end.

Declare Scope py_scope.
Delimit Scope py_scope with py.
Notation "'let*' x ':=' c 'in' k" := (bind c (fun x => k))
  (at level 10, x name, c at level 100, k at level 200) : py_scope.
Notation "c ;; k" := (bind c (fun _ => k))
  (at level 100, k at level 200, right associativity) : py_scope.
Local Open Scope py_scope.

Definition call {A} (r : tried A) : M A :=
  fun w => (match r with Ok a => Return a | Fails e => Raise e end, w).

Definition ask : M environment := fun w => (Return (env w), w).

Definition emit (p : printed) : M unit :=
  fun w => (Return tt,
            {| env := env w; console := console w ++ [p];
               count := count w; summary := summary w |}).

Definition print (t : str) : M unit := emit (Out t).

Definition get_count : M (list Z) := fun w => (Return (count w), w).
Definition get_summary : M (list (list str)) := fun w => (Return (summary w), w).

Definition set_count (c : list Z) : M unit :=
  fun w => (Return tt,
            {| env := env w; console := console w; count := c; summary := summary w |}).

Definition set_summary (l : list (list str)) : M unit :=
  fun w => (Return tt,
            {| env := env w; console := console w; count := count w; summary := l |}).

(** [l[i]] for an index that is not negative. *)
Definition getitem {A} (l : list A) (i : nat) : M A :=
  match l !! i with
  | Some a => ret a
  | None => raise (IndexError (s "list index out of range"))
  end.

(** [next(it)] on an iterator over [l]. *)
Definition next {A} (l : list A) : M A :=
  match l with
  | a :: _ => ret a
  | [] => raise StopIteration
  end.

(** [sys.exit(n)] and the builtin [exit(n)]. *)
Definition sys_exit {A} (n : Z) : M A := fun w => (Exit n, w).

Fixpoint for_each {A} (l : list A) (body : A -> M unit) : M unit :=
  match l with
  | [] => ret tt
  | a :: l' => body a ;; for_each l' body
  end.

(** ** The program *)

Import PosixPath.

(** The parsed command line: the positional [test_path], [-t/--threads]
    and [-f/--ffmpeg-path] (absent when neither the option nor the
    environment variable [FFMPEG_PATH] gives it). *)
Record cli : Type := {
  cli_test_path : str;
  cli_threads : Z;
  cli_ffmpeg_path : option str
}.

(** [args] as the functions below [__main__] see it: [__main__] has left
    by then when [ffmpeg_path] is [None]. *)
Record args : Type := {
  test_path : str;
  threads : Z;
  ffmpeg_path : str
}.

(** [except (FileNotFoundError, StopIteration)] *)
Definition missing_or_exhausted (e : exn) : bool :=
  match e with
  | FileNotFoundError _ _ _ | StopIteration => true
  | _ => false
  end.

Definition get_ref_md5 (fn : str) : M (option str) :=
  let dir := dirname fn in
  let name := basename fn in
  let checksums_path := join dir (s "md5.txt") in
  try_except
    (let* e := ask in
     let* text := call (read_text e checksums_path) in
     let checksums := readlines text in
     let checksums :=
       List.filter (fun l => endswith l (s "  " ++ name ++ [LF])) checksums in
     let* checksum := next checksums in
     let* token := getitem (split checksum) 0 in
     ret (Some token))
    missing_or_exhausted
    (fun _ => ret None).

Definition get_md5 (input ffmpeg_path : str) : M str :=
  let cmd := ffmpeg_path ++ s " -i " ++ input ++ s " -vsync 0 -f md5 -" in
  print cmd ;;
  try_except
    (let* e := ask in
     let* o := call (subprocess_run e (split cmd) (5 * 60)) in
     if bool_decide (returncode o <> 0) then
       emit (OutBytes (stderr o)) ;;
       ret []
     else
       let* text := call (stdout_decode o) in
       ret (strip (remove (s "MD5=") text)))
    is_Exception
    (fun e => ret (str_of_exn e)).

(** [not refmd5] holds for [None] and for the empty string: both take the
    first branch. *)
Definition test (f : str) (a : args) : M outcome :=
  let* refmd5 := get_ref_md5 f in
  match refmd5 with
  | Some (c :: r) =>
      let refmd5 := c :: r in
      let* md5 := get_md5 f (ffmpeg_path a) in
      if bool_decide (refmd5 = md5) then ret PASSED
      else
        print (s "md5 mismatch ref = " ++ refmd5 ++ s " md5 = " ++ md5) ;;
        ret FAILED
  | _ =>
      print (basename f ++ s " has no ref md5") ;;
      ret SKIPPED
  end.

Definition is_candidiate (f : str) : bool :=
  let '(filename, ext) := splitext f in
  let ext := lower ext in
  let supported := [s ".bin"; s ".bit"; s ".vvc"; s ".266"] in
  bool_decide (ext ∈ supported).

(** The conditional expression binds looser than [+]: the base name is
    printed only when the file passed. *)
Definition test_file (path : str) (a : args) : M Z :=
  let* pss := test path a in
  print (if bool_decide (pss = PASSED) then basename path ++ s " passed"
         else s " failed") ;;
  ret 0.

Definition print_files (name : str) (files : list str) : M unit :=
  if bool_decide (0 < length files)%nat then
    print (name ++ s " files:") ;;
    for_each files (fun f => print (s "    " ++ f))
  else ret tt.

Definition print_summary : M unit :=
  print [] ;;
  print (s "+++++++++ report +++++++++") ;;
  let* summary := get_summary in
  let* failed := getitem summary (index FAILED) in
  print_files (s "failed") failed ;;
  let* skipped := getitem summary (index SKIPPED) in
  print_files (s "skipped") skipped ;;
  let* passed := getitem summary (index PASSED) in
  print_files (s "passed") passed ;;
  print [] ;;
  let* count := get_count in
  let* p := getitem count (index PASSED) in
  let* f := getitem count (index FAILED) in
  let* k := getitem count (index SKIPPED) in
  print (s "total = " ++ str_of_int (p + f + k)
         ++ s ", passed = " ++ str_of_int p
         ++ s ", failed = " ++ str_of_int f
         ++ s ", skipped = " ++ str_of_int k) ;;
  print (s "----------").

(** [executor.submit(test, fn, args)]: the task runs on a worker thread.
    Its result does not depend on when it runs, since nothing changes the
    environment; the lines it prints interleave with those of the other
    workers and are not recorded. *)
Definition submit (fn : str) (a : args) : M future :=
  fun w => (Return {| fut_result := fst (test fn a w) |}, w).

(** The dictionary [future_to_file] is kept as the list of its items in
    insertion order: every [submit] makes a new future, so no key is
    ever overwritten.  [submit_files_of] is the inner loop over the files
    of one directory, [submit_walk] the outer loop over [os.walk]. *)
Fixpoint submit_files_of (root : str) (files : list str) (a : args)
    (future_to_file : list (future * str)) : M (list (future * str)) :=
  match files with
  | [] => ret future_to_file
  | f :: files' =>
      let fn := join root f in
      if is_candidiate fn then
        let* fut := submit fn a in
        submit_files_of root files' a (future_to_file ++ [(fut, f)])
      else submit_files_of root files' a future_to_file
  end.

Fixpoint submit_walk (triples : list (str * list str * list str)) (a : args)
    (future_to_file : list (future * str)) : M (list (future * str)) :=
  match triples with
  | [] => ret future_to_file
  | (root, dirs, files) :: triples' =>
      let* future_to_file := submit_files_of root files a future_to_file in
      submit_walk triples' a future_to_file
  end.

Definition submmit_files (path : str) (a : args) : M (list (future * str)) :=
  let future_to_file := [] in
  let* e := ask in
  submit_walk (walk e path) a future_to_file.

(** One turn of the collection loop of [test_dir]. *)
Definition collect (item : future * str) : M unit :=
  let '(fut, f) := item in
  match fut_result fut with
  | Raise e =>
      print (f ++ s " generated an exception: " ++ str_of_exn e)
  | Exit n => sys_exit n
  | Return st =>
      let* count := get_count in
      let* c := getitem count (index st) in
      set_count (<[index st := c + 1]> count) ;;
      let* summary := get_summary in
      let* l := getitem summary (index st) in
      set_summary (<[index st := l ++ [f]]> summary)
  end.

(** [ThreadPoolExecutor(max_workers=n)] refuses a pool without workers. *)
Definition ThreadPoolExecutor (max_workers : Z) : M unit :=
  if bool_decide (max_workers <= 0) then
    raise (ValueError (s "max_workers must be greater than 0"))
  else ret tt.

Definition test_dir (path : str) (a : args) : M unit :=
  ThreadPoolExecutor (threads a) ;;
  let* future_to_file := submmit_files path a in
  let* e := ask in
  for_each (as_completed e future_to_file) collect ;;
  print_summary ;;
  let* count := get_count in
  let* failed := getitem count (index FAILED) in
  sys_exit failed.

Definition main (c : cli) : M unit :=
  match cli_ffmpeg_path c with
  | None =>
      emit (Err (s "No FFmpeg path provided. Please provide a path to an FFmpeg executable either with -f, --ffmpeg-path or the environment variable FFMPEG_PATH.")) ;;
      sys_exit 1
  | Some p =>
      let a := {| test_path := cli_test_path c; threads := cli_threads c;
                  ffmpeg_path := p |} in
      let* e := ask in
      if isfile e (test_path a) then
        test_file (test_path a) a ;; ret tt
      else test_dir (test_path a) a
  end.

(** The exit status of the interpreter: 0 when the script runs to its end,
    the argument of [sys.exit], 1 after an uncaught exception. *)
Definition exit_status (r : result unit) : Z :=
  match r with
  | Return _ => 0
  | Exit n => n
  | Raise _ => 1
  end.

(** A run of the script from a fresh interpreter. *)
Definition python (c : cli) (e : environment) : result unit * world :=
  main c (boot e).

(** ** The vocabulary of the statements *)

(** Only white space; no white space at all. *)
Definition blank (t : str) : Prop := Forall (fun c => isspace c = true) t.

Definition solid (t : str) : Prop := Forall (fun c => isspace c = false) t.

(** The first white-space-delimited token of a line, stated without
    [split]: white space, then the token, then the end of the line or
    white space again. *)
Definition first_token (l tok : str) : Prop :=
  exists ws rest,
    l = ws ++ tok ++ rest /\ blank ws /\ tok <> [] /\ solid tok
    /\ (rest = [] \/ exists c r, rest = c :: r /\ isspace c = true).

(** What may follow a token. *)
Definition ends_token (rest : str) : Prop :=
  rest = [] \/ exists c r, rest = c :: r /\ isspace c = true.

(** A line of [readlines]: not empty, and a line feed can only be its
    last character. *)
Definition line_shape (l : str) : Prop :=
  exists body, (LF ∉ body) /\ (l = body ++ [LF] \/ (l = body /\ body <> [])).

(** Two characters are the same up to case when they are equal or are
    the capital and the small form of one ASCII letter. *)
Definition capital_of (u l : ascii) : Prop :=
  (65 <= N_of_ascii u <= 90)%N /\ N_of_ascii l = (N_of_ascii u + 32)%N.

Definition same_ignoring_case (c d : ascii) : Prop :=
  c = d \/ capital_of c d \/ capital_of d c.

Definition equal_ignoring_case (t u : str) : Prop :=
  Forall2 same_ignoring_case t u.

(** A character that [lower] leaves alone and that is plain ASCII. *)
Definition small_ascii (d : ascii) : Prop :=
  lower_char d = d /\ (N_of_ascii d < 128)%N.

(** The allow-list of extensions. *)
Definition supported : list str := [s ".bin"; s ".bit"; s ".vvc"; s ".266"].

(** The manifest of a file and the test for its line. *)
Definition manifest_path (fn : str) : str := join (dirname fn) (s "md5.txt").

Definition entry_for (name l : str) : bool :=
  endswith l (s "  " ++ name ++ [LF]).

(** The value of [get_ref_md5], read off the environment. *)
Definition reference (e : environment) (fn : str) : result (option str) :=
  match read_text e (manifest_path fn) with
  | Fails x => if missing_or_exhausted x then Return None else Raise x
  | Ok text =>
      match List.filter (entry_for (basename fn)) (readlines text) with
      | [] => Return None
      | l :: _ =>
          match split l with
          | tok :: _ => Return (Some tok)
          | [] => Raise (IndexError (s "list index out of range"))
          end
      end
  end.

(** The command line of the decoder and the value of [get_md5]. *)
Definition command (p f : str) : str :=
  p ++ s " -i " ++ f ++ s " -vsync 0 -f md5 -".

Definition digest (e : environment) (f p : str) : str :=
  match subprocess_run e (split (command p f)) 300 with
  | Fails x => str_of_exn x
  | Ok o =>
      if bool_decide (returncode o <> 0) then []
      else
        match stdout_decode o with
        | Ok text => strip (remove (s "MD5=") text)
        | Fails x => str_of_exn x
        end
  end.

(** The world after some more lines went to the console. *)
Definition logged (w : world) (ps : list printed) : world :=
  {| env := env w; console := console w ++ ps;
     count := count w; summary := summary w |}.

(** The value of [test]. *)
Definition verdict (e : environment) (f : str) (a : args) : result outcome :=
  match reference e f with
  | Return (Some (c :: r)) =>
      Return (if bool_decide (c :: r = digest e f (ffmpeg_path a))
              then PASSED else FAILED)
  | Return _ => Return SKIPPED
  | Raise x => Raise x
  | Exit n => Exit n
  end.

(** The ways the decoder invocation fails: the decoder exits with a
    status that is not zero, the call times out, or the process cannot be
    launched (a missing executable, a permission error, any [OSError]). *)
Inductive decoder_failure : tried CompletedProcess -> Prop :=
| nonzero_exit o : returncode o <> 0 -> decoder_failure (Ok o)
| timed_out c t : decoder_failure (Fails (TimeoutExpired c t))
| launch_missing n m p : decoder_failure (Fails (FileNotFoundError n m p))
| launch_refused n m p : decoder_failure (Fails (OSError n m p)).

(** A hexadecimal digit, small or capital. *)
Definition hexdigit (c : ascii) : bool :=
  let n := N_of_ascii c in
  ((48 <=? n) && (n <=? 57) || (65 <=? n) && (n <=? 70)
   || (97 <=? n) && (n <=? 102))%N.

(** The spec's reading of the extraction: only a leading [MD5=] goes. *)
Definition removeprefix (p t : str) : str :=
  if startswith t p then drop (length p) t else t.

Definition leading_prefix_stripped (text : str) : str :=
  strip (removeprefix (s "MD5=") text).

(** The candidate files under a directory, as (path, file name) pairs in
    the order of [os.walk]. *)
Definition files_of (triple : str * list str * list str) : list (str * str) :=
  let '(root, _, files) := triple in
  List.filter (fun item => is_candidiate (fst item))
              (map (fun f => (join root f, f)) files).

Definition dispatched (e : environment) (path : str) : list (str * str) :=
  flat_map files_of (walk e path).

(** The item of [future_to_file] for one candidate. *)
Definition task (e : environment) (a : args) (item : str * str) : future * str :=
  ({| fut_result := verdict e (fst item) a |}, snd item).

(** How many tasks returned the outcome [o]. *)
Definition returned (o : outcome) (item : future * str) : bool :=
  match fut_result (fst item) with
  | Return o' => bool_decide (o' = o)
  | _ => false
  end.

Fixpoint tally (o : outcome) (l : list (future * str)) : Z :=
  match l with
  | [] => 0
  | item :: l' => (if returned o item then 1 else 0) + tally o l'
  end.

(** A task that gave an outcome, not an exception. *)
Definition gave_outcome (item : future * str) : bool :=
  match fut_result (fst item) with
  | Return _ => true
  | _ => false
  end.

(** [count[PASSED] + count[FAILED] + count[SKIPPED]] *)
Definition total (w : world) : Z := foldr Z.add 0 (count w).

(** [args] as [__main__] hands it on. *)
Definition args_of (c : cli) (p : str) : args :=
  {| test_path := cli_test_path c; threads := cli_threads c; ffmpeg_path := p |}.

(** The claim's reading of single-file mode: classify, then test. *)
Definition test_file_after_classifier (path : str) (a : args) : M Z :=
  if is_candidiate path then test_file path a else ret 0.

(** ** Concrete runs *)

Module Sample.

Definition no_such_file (p : str) : exn :=
  FileNotFoundError 2 (s "No such file or directory") (s "'" ++ p ++ s "'").

(** A directory [d] with one manifest. *)
Definition manifest_in_d (text : str) (p : str) : tried str :=
  if bool_decide (p = s "d/md5.txt") then Ok text else Fails (no_such_file p).

Definition decoder_prints (out : str) : tried CompletedProcess :=
  Ok {| returncode := 0; stdout_decode := Ok out; stderr := [] |}.

Definition decoder_exits (rc : Z) : tried CompletedProcess :=
  Ok {| returncode := rc; stdout_decode := Ok []; stderr := s "Invalid data" |}.

Definition surroundings (manifest : str -> tried str)
    (decoder : tried CompletedProcess)
    (tree : list (str * list str * list str)) (single : bool) : environment :=
  {| read_text := manifest;
     isfile := fun _ => single;
     walk := fun _ => tree;
     subprocess_run := fun _ _ => decoder;
     as_completed := fun l => rev l |}.

Definition ffmpeg : args :=
  {| test_path := s "d"; threads := 4; ffmpeg_path := s "ffmpeg" |}.

Definition in_d (files : list str) : list (str * list str * list str) :=
  [(s "d", [], files)].

(** Scenario A and B: the manifest lists clip1.bin with abc123. *)
Definition one_line : str := s "abc123  clip1.bin" ++ [LF].

Definition passing : environment :=
  surroundings (manifest_in_d one_line) (decoder_prints (s "MD5=abc123" ++ [LF]))
               (in_d [s "clip1.bin"]) false.

Definition mismatching : environment :=
  surroundings (manifest_in_d one_line) (decoder_prints (s "MD5=def456" ++ [LF]))
               (in_d [s "clip1.bin"]) false.

Definition crashing : environment :=
  surroundings (manifest_in_d one_line) (decoder_exits 1)
               (in_d [s "clip1.bin"]) false.

(** The last line of the manifest has no line feed. *)
Definition unterminated : environment :=
  surroundings (manifest_in_d (s "ffff  other.bin" ++ [LF] ++ s "abc123  clip1.bin"))
               (decoder_prints (s "MD5=abc123" ++ [LF]))
               (in_d [s "clip1.bin"]) false.

(** The manifest cannot be read: permission denied. *)
Definition denied : environment :=
  surroundings
    (fun p => Fails (OSError 13 (s "Permission denied") (s "'" ++ p ++ s "'")))
    (decoder_prints (s "MD5=abc123" ++ [LF]))
    (in_d [s "clip1.bin"]) false.

(** Three candidates and two other files: one passes, one fails, one has
    no reference. *)
Definition mixed : environment :=
  surroundings
    (manifest_in_d (s "abc123  a.bin" ++ [LF] ++ s "ffff  b.BIT" ++ [LF]))
    (decoder_prints (s "MD5=abc123" ++ [LF]))
    (in_d [s "a.bin"; s "b.BIT"; s "c.vvc"; s "md5.txt"; s "notes"]) false.

(** The decoder repeats the prefix inside its output. *)
Definition repeating : environment :=
  surroundings (manifest_in_d one_line) (decoder_prints (s "MD5=abMD5=cd" ++ [LF]))
               (in_d [s "clip1.bin"]) false.

(** A single file that is not a candidate. *)
Definition movie : environment :=
  surroundings
    (fun p => if bool_decide (p = s "md5.txt")
              then Ok (s "abc123  clip.mp4" ++ [LF]) else Fails (no_such_file p))
    (decoder_prints (s "MD5=abc123" ++ [LF]))
    [] true.

Definition directory_run : cli :=
  {| cli_test_path := s "d"; cli_threads := 4; cli_ffmpeg_path := Some (s "ffmpeg") |}.

Definition movie_run : cli :=
  {| cli_test_path := s "clip.mp4"; cli_threads := 4;
     cli_ffmpeg_path := Some (s "ffmpeg") |}.

End Sample.

Import Sample.

(** ** The rest of the script and of the vocabulary *)

(** [check_input] reads [sys.argv], here its argument; nothing in the
    script calls it. *)
Definition check_input (argv : list str) : M str :=
  let argc := length argv in
  (if negb (argc =? 2)%nat && negb (argc =? 1)%nat then
     let* prog := getitem argv 0 in
     print (s "usage: " ++ prog ++ s " directory/file") ;;
     sys_exit 1
   else ret tt) ;;
  getitem argv 1.

(** A manifest as a list of (checksum, file name) entries, and its text:
    one line [<checksum>  <file name>] per entry. *)
Definition manifest_line (entry : str * str) : str :=
  fst entry ++ s "  " ++ snd entry ++ [LF].

Definition manifest_text (entries : list (str * str)) : str :=
  concat (map manifest_line entries).

(** The checksum of the first entry for a file name. *)
Fixpoint recorded (name : str) (entries : list (str * str)) : option str :=
  match entries with
  | [] => None
  | entry :: entries' =>
      if bool_decide (snd entry = name) then Some (fst entry)
      else recorded name entries'
  end.

(** An entry as md5sum writes it: a checksum that is one token, and a
    file name without space or line feed. *)
Definition well_formed_entry (entry : str * str) : Prop :=
  fst entry <> [] /\ solid (fst entry)
  /\ (" "%char ∉ snd entry) /\ (LF ∉ snd entry).

(** The lines [print_files] writes. *)
Definition files_section (name : str) (files : list str) : list printed :=
  match files with
  | [] => []
  | _ :: _ => Out (name ++ s " files:") :: map (fun f => Out (s "    " ++ f)) files
  end.

(** The lines [print_summary] writes for three counts and three lists. *)
Definition report (p f k : Z) (sp sf sk : list str) : list printed :=
  [Out []; Out (s "+++++++++ report +++++++++")]
  ++ files_section (s "failed") sf
  ++ files_section (s "skipped") sk
  ++ files_section (s "passed") sp
  ++ [Out [];
      Out (s "total = " ++ str_of_int (p + f + k)
           ++ s ", passed = " ++ str_of_int p
           ++ s ", failed = " ++ str_of_int f
           ++ s ", skipped = " ++ str_of_int k);
      Out (s "----------")].

(** The file names of the tasks that returned [o], in the order of [l]. *)
Definition names_of (o : outcome) (l : list (future * str)) : list str :=
  map snd (List.filter (returned o) l).

(** The lines the collection loop writes: one per task that raised. *)
Definition exception_lines (l : list (future * str)) : list printed :=
  omap (fun item =>
          match fut_result (fst item) with
          | Raise x =>
              Some (Out (snd item ++ s " generated an exception: " ++ str_of_exn x))
          | _ => None
          end) l.

(** The same surroundings with another completion order. *)
Definition with_order (e : environment)
    (order : list (future * str) -> list (future * str)) : environment :=
  {| read_text := read_text e; isfile := isfile e; walk := walk e;
     subprocess_run := subprocess_run e; as_completed := order |}.

(** The argument vector the decoder is started with. *)
Definition decoder_argv (p f : str) : list str :=
  [p; s "-i"; f; s "-vsync"; s "0"; s "-f"; s "md5"; s "-"].

(** More samples. *)
Module MoreSamples.

(** A manifest with two names, one the end of the other. *)
Definition two_names : list (str * str) :=
  [(s "ffff", s "xclip1.bin"); (s "abc123", s "clip1.bin")].

Definition suffixes : environment :=
  surroundings (manifest_in_d (manifest_text two_names))
               (decoder_prints (s "MD5=abc123" ++ [LF]))
               (in_d [s "xclip1.bin"; s "clip1.bin"]) false.

(** A directory without manifest. *)
Definition bare : environment :=
  surroundings (fun p => Fails (no_such_file p))
               (decoder_prints (s "MD5=abc123" ++ [LF]))
               (in_d [s "a.bin"; s "b.vvc"; s "notes"]) false.

(** A world after some collecting. *)
Definition collected : world :=
  {| env := passing; console := [];
     count := [1; 2; 0];
     summary := [[s "a.bin"]; [s "b.bit"; s "c.vvc"]; []] |}.

Definition permission_denied : exn :=
  OSError 13 (s "Permission denied") (s "'d/md5.txt'").

End MoreSamples.

Import MoreSamples.

(** * Properties *)

(** ** Strings *)

Section StringFacts.

Implicit Types (t p l w : str) (c : ascii).

Lemma endswith_spec t suf :
  endswith t suf = true <-> exists p, t = p ++ suf.
Proof.
  unfold endswith.
  rewrite andb_true_iff, Nat.leb_le, bool_decide_eq_true.
  split.
  - intros [Hlen Hdrop].
    exists (take (length t - length suf) t).
    rewrite <- (take_drop (length t - length suf) t) at 1.
    f_equal. exact Hdrop.
  - intros [p ->]. rewrite length_app. split; [lia|].
    replace (length p + length suf - length suf)%nat with (length p) by lia.
    apply drop_app_length.
Qed.

Lemma endswith_last t suf c :
  endswith t (suf ++ [c]) = true -> last t = Some c.
Proof.
  intros [p ->]%endswith_spec.
  rewrite app_assoc. apply last_snoc.
Qed.

Lemma startswith_spec t p :
  startswith t p = true <-> exists r, t = p ++ r.
Proof.
  unfold startswith. rewrite bool_decide_eq_true. split.
  - intros H. exists (drop (length p) t).
    rewrite <- (take_drop (length p) t) at 1.
    f_equal. exact H.
  - intros [r ->]. apply take_app_length.
Qed.

(** *** [split] *)

Lemma split_nil_blank t : split t = [] <-> blank t.
Proof.
  unfold blank. induction t as [|c t IH]; simpl.
  - split; auto.
  - destruct (isspace c) eqn:Hc.
    + rewrite IH. split; [intros; constructor; auto | inversion 1; auto].
    + split.
      * destruct t as [|d t']; [discriminate|].
        destruct (isspace d); [discriminate|].
        destruct (split (d :: t')); discriminate.
      * inversion 1; congruence.
Qed.

Lemma split_tokens t :
  Forall (fun w => w <> [] /\ solid w) (split t).
Proof.
  unfold solid. induction t as [|c t IH]; simpl; [constructor|].
  destruct (isspace c) eqn:Hc; [exact IH|].
  destruct t as [|d t'].
  - repeat constructor; auto.
  - destruct (isspace d) eqn:Hd.
    + constructor; [|exact IH]. split; [discriminate|]. repeat constructor; auto.
    + destruct (split (d :: t')) as [|w ws].
      * repeat constructor; auto.
      * inversion IH as [|? ? [_ Hw] Hws]; subst.
        constructor; [|exact Hws]. split; [discriminate|]. constructor; auto.
Qed.

Lemma split_head_first_token l tok more :
  split l = tok :: more -> first_token l tok.
Proof.
  revert tok more. induction l as [|c t IH]; simpl; intros tok more H.
  - discriminate.
  - destruct (isspace c) eqn:Hc.
    + destruct (IH _ _ H) as (ws & rest & -> & Hws & Hne & Htok & Hrest).
      exists (c :: ws), rest. repeat split; auto. constructor; auto.
    + destruct t as [|d t'].
      * injection H as <- <-. exists [], []. repeat split; auto.
        -- constructor.
        -- repeat constructor; auto.
      * destruct (isspace d) eqn:Hd.
        -- injection H as <- <-. exists [], (d :: t'). repeat split; auto.
           ++ constructor.
           ++ repeat constructor; auto.
           ++ right. eauto.
        -- destruct (split (d :: t')) as [|w ws] eqn:Hs.
           ++ apply split_nil_blank in Hs. inversion Hs; congruence.
           ++ injection H as <- <-.
              destruct (IH _ _ eq_refl) as (ws' & rest & Heq & Hws & Hne & Htok & Hrest).
              destruct ws' as [|x ws'].
              ** simpl in Heq. exists [], rest. simpl. rewrite Heq.
                 repeat split; auto; try constructor; auto.
              ** simpl in Heq. injection Heq as <- _.
                 inversion Hws; congruence.
Qed.

Lemma solid_run_unique tok tok' rest rest' :
  solid tok -> solid tok' -> ends_token rest -> ends_token rest' ->
  tok ++ rest = tok' ++ rest' -> tok = tok'.
Proof.
  intros Htok. revert tok'.
  induction Htok as [|a tok Ha Htok IH]; intros tok' Htok' Hrest Hrest' Heq.
  - destruct tok' as [|b tok']; [reflexivity|].
    simpl in Heq. inversion Htok' as [|? ? Hb _]; subst.
    destruct Hrest as [Hr|(c & r & Hr & Hc)]; [discriminate|].
    injection Hr as -> _. congruence.
  - destruct tok' as [|b tok'].
    + simpl in Heq.
      destruct Hrest' as [->|(c & r & -> & Hc)]; [discriminate|].
      injection Heq as -> _. congruence.
    + simpl in Heq. injection Heq as -> Heq.
      inversion Htok'; subst. f_equal. eapply IH; eauto.
Qed.

Lemma first_token_unique l tok tok' :
  first_token l tok -> first_token l tok' -> tok = tok'.
Proof.
  intros (ws & rest & -> & Hws & Hne & Htok & Hrest).
  induction Hws as [|x ws Hx Hws IH];
    intros (ws' & rest' & Heq & Hws' & Hne' & Htok' & Hrest').
  - destruct ws' as [|y ws'].
    + simpl in Heq.
      exact (solid_run_unique _ _ _ _ Htok Htok' Hrest Hrest' Heq).
    + destruct tok as [|a tok]; [congruence|].
      simpl in Heq. injection Heq as -> _.
      inversion Hws'; inversion Htok; congruence.
  - destruct ws' as [|y ws'].
    + destruct tok' as [|b tok']; [congruence|].
      simpl in Heq. injection Heq as -> _.
      inversion Htok'; congruence.
    + simpl in Heq. injection Heq as <- Heq.
      inversion Hws'; subst.
      apply IH. exists ws', rest'. auto.
Qed.

(** *** [readlines] *)

Lemma readlines_concat t : concat (readlines t) = t.
Proof.
  induction t as [|c t IH]; simpl; [reflexivity|].
  case_bool_decide.
  - simpl. by rewrite IH.
  - destruct (readlines t) as [|l ls]; simpl in *; by rewrite <- IH.
Qed.

Lemma readlines_nil t : readlines t = [] <-> t = [].
Proof.
  split; [|intros ->; reflexivity].
  intros H. rewrite <- (readlines_concat t), H. reflexivity.
Qed.

Lemma readlines_shape t : Forall line_shape (readlines t).
Proof.
  induction t as [|c t IH]; simpl; [constructor|].
  case_bool_decide as Hc.
  - constructor; [|exact IH]. subst c.
    exists []. split; [apply not_elem_of_nil | left; reflexivity].
  - destruct (readlines t) as [|l ls].
    + repeat constructor. exists [c]. split.
      * intros Hx%list_elem_of_singleton. congruence.
      * right. split; [reflexivity | discriminate].
    + inversion IH as [|? ? (body & Hb & Hl) Hls]; subst.
      constructor; [|exact Hls].
      exists (c :: body). split.
      * rewrite not_elem_of_cons. split; [congruence | exact Hb].
      * destruct Hl as [->|[-> _]]; [left | right; split]; auto; discriminate.
Qed.

Lemma readlines_no_LF t : t <> [] -> LF ∉ t -> readlines t = [t].
Proof.
  induction t as [|c t IH]; [congruence|]. intros _ Hnot.
  apply not_elem_of_cons in Hnot as [Hc Ht]. simpl.
  rewrite bool_decide_eq_false_2 by congruence.
  destruct t as [|d t']; [reflexivity|].
  rewrite IH; [reflexivity | discriminate | exact Ht].
Qed.

Lemma readlines_app_LF b tail :
  readlines ((b ++ [LF]) ++ tail) = readlines (b ++ [LF]) ++ readlines tail.
Proof.
  induction b as [|c b IH]; simpl.
  - reflexivity.
  - case_bool_decide.
    + simpl. f_equal. exact IH.
    + rewrite IH.
      destruct (readlines (b ++ [LF])) as [|l ls] eqn:Hr; [|reflexivity].
      apply readlines_nil in Hr. destruct b; discriminate.
Qed.

(** *** [replace] and [strip] *)

Lemma remove_from_skip old u t :
  remove_from (length u) old (u ++ t) = remove_from 0 old t.
Proof. induction u as [|c u IH]; simpl; auto. Qed.

Lemma remove_occurrence old t :
  old <> [] -> remove old (old ++ t) = remove old t.
Proof.
  intros Hne. destruct old as [|c old']; [congruence|].
  unfold remove. change ((c :: old') ++ t) with (c :: (old' ++ t)).
  cbn [remove_from].
  assert (Hs : startswith (c :: old' ++ t) (c :: old') = true).
  { apply startswith_spec. exists t. reflexivity. }
  rewrite Hs.
  replace (length (c :: old') - 1)%nat with (length old') by (simpl; lia).
  apply remove_from_skip.
Qed.

Lemma remove_without_head c old' u t :
  c ∉ u ->
  remove (c :: old') (u ++ t) = u ++ remove (c :: old') t.
Proof.
  unfold remove. induction u as [|x u IH]; intros Hnot; [reflexivity|].
  apply not_elem_of_cons in Hnot as [Hx Hu].
  change ((x :: u) ++ t) with (x :: (u ++ t)). cbn [remove_from].
  destruct (startswith (x :: u ++ t) (c :: old')) eqn:Hs.
  - apply startswith_spec in Hs as [r Hr]. simpl in Hr. congruence.
  - simpl. f_equal. apply IH, Hu.
Qed.

Lemma remove_nil old : remove old [] = [].
Proof. reflexivity. Qed.

Lemma lstrip_blank t : blank t -> lstrip t = [].
Proof. induction 1 as [|c t Hc _ IH]; simpl; [|rewrite Hc]; auto. Qed.

Lemma lstrip_blank_app ws t : blank ws -> lstrip (ws ++ t) = lstrip t.
Proof. induction 1 as [|c ws Hc _ IH]; simpl; [|rewrite Hc]; auto. Qed.

Lemma lstrip_solid t : solid t -> lstrip t = t.
Proof. destruct 1 as [|c t Hc _]; simpl; [|rewrite Hc]; auto. Qed.

Lemma blank_rev t : blank t -> blank (rev t).
Proof. apply Forall_rev. Qed.

Lemma solid_rev t : solid t -> solid (rev t).
Proof. apply Forall_rev. Qed.

Lemma strip_padded ws1 tok ws2 :
  blank ws1 -> solid tok -> blank ws2 -> strip (ws1 ++ tok ++ ws2) = tok.
Proof.
  intros H1 Htok H2. unfold strip, rstrip.
  rewrite lstrip_blank_app by exact H1.
  destruct tok as [|a tok'].
  - simpl. rewrite (lstrip_blank ws2) by exact H2. reflexivity.
  - inversion Htok as [|? ? Ha Htok']; subst.
    change ((a :: tok') ++ ws2) with (a :: (tok' ++ ws2)).
    cbn [lstrip]. rewrite Ha.
    change (a :: tok' ++ ws2) with ((a :: tok') ++ ws2).
    rewrite rev_app_distr, lstrip_blank_app by (apply blank_rev, H2).
    rewrite lstrip_solid by (apply solid_rev, Htok).
    apply rev_involutive.
Qed.

End StringFacts.

(** ** Paths and the file classifier *)

Section PathFacts.

Implicit Types (t p : str) (c d : ascii).

Lemma rfind_lower_bound c t : -1 <= rfind c t.
Proof.
  induction t as [|x t IH]; simpl; [lia|].
  destruct (0 <=? rfind c t) eqn:H; [lia|].
  case_bool_decide; lia.
Qed.

Lemma from_from i j t :
  0 <= i <= j -> from j t = drop (Z.to_nat (j - i)) (from i t).
Proof.
  intros H. unfold from. rewrite drop_drop. f_equal. lia.
Qed.

Lemma N_of_ascii_inj c d : N_of_ascii c = N_of_ascii d -> c = d.
Proof.
  intros H. rewrite <- (ascii_N_embedding c), <- (ascii_N_embedding d).
  by rewrite H.
Qed.

Lemma lower_char_caseless c d :
  small_ascii d -> lower_char c = d <-> same_ignoring_case c d.
Proof.
  intros [Hd Hlt]. unfold same_ignoring_case, capital_of.
  pose proof (N_ascii_bounded c) as Hc.
  pose proof (N_ascii_bounded d) as Hdb.
  unfold lower_char in *.
  split.
  - intros H.
    destruct ((65 <=? N_of_ascii c) && (N_of_ascii c <=? 90)
              || (192 <=? N_of_ascii c) && (N_of_ascii c <=? 222)
                 && negb (N_of_ascii c =? 215))%N eqn:Hup; [|auto].
    assert (Hn : N_of_ascii d = (N_of_ascii c + 32)%N).
    { rewrite <- H. apply N_ascii_embedding.
      apply orb_true_iff in Hup as [Hup|Hup];
        repeat (apply andb_true_iff in Hup as [Hup ?]);
        rewrite ?N.leb_le in *; lia. }
    apply orb_true_iff in Hup as [Hup|Hup];
      repeat (apply andb_true_iff in Hup as [Hup ?]);
      rewrite ?N.leb_le in *; [right; left; lia | lia].
  - intros [->|[[Hr Hn]|[Hr Hn]]].
    + exact Hd.
    + assert (Hup : ((65 <=? N_of_ascii c) && (N_of_ascii c <=? 90))%N = true).
      { apply andb_true_iff. rewrite !N.leb_le. lia. }
      rewrite Hup. simpl. apply N_of_ascii_inj.
      rewrite N_ascii_embedding by lia. lia.
    + assert (Hup : ((65 <=? N_of_ascii d) && (N_of_ascii d <=? 90))%N = true).
      { apply andb_true_iff. rewrite !N.leb_le. lia. }
      rewrite Hup in Hd. simpl in Hd.
      apply (f_equal N_of_ascii) in Hd.
      rewrite N_ascii_embedding in Hd by lia. lia.
Qed.

Lemma lower_caseless t u :
  Forall small_ascii u -> lower t = u <-> equal_ignoring_case t u.
Proof.
  unfold lower, equal_ignoring_case. intros Hu. revert t.
  induction Hu as [|d u Hd Hu IH]; intros t.
  - split.
    + intros H. destruct t; [constructor | discriminate].
    + inversion 1. reflexivity.
  - split.
    + intros H. destruct t as [|c t]; [discriminate|].
      simpl in H. injection H as Hc Ht.
      constructor; [by apply lower_char_caseless | by apply IH].
    + inversion 1 as [|c ? t' ? Hc Ht]; subst. simpl. f_equal.
      * by apply lower_char_caseless.
      * by apply IH.
Qed.

Lemma supported_small : Forall (Forall small_ascii) supported.
Proof. repeat constructor. Qed.

Lemma is_candidiate_unfold f :
  is_candidiate f = bool_decide (lower (snd (splitext f)) ∈ supported).
Proof. unfold is_candidiate. destruct (splitext f). reflexivity. Qed.

(** The extension of a candidate ends its base name and starts with a
    dot. *)
Lemma candidate_basename f :
  is_candidiate f = true ->
  exists stem ext, basename f = stem ++ "."%char :: ext.
Proof.
  rewrite is_candidiate_unfold, bool_decide_eq_true.
  unfold splitext, basename.
  pose proof (rfind_lower_bound sep f) as Hsep.
  destruct ((rfind sep f <? rfind extsep f) && _) eqn:Hc; simpl.
  - apply andb_true_iff in Hc as [Hlt%Z.ltb_lt _].
    intros Hin.
    rewrite (from_from (rfind sep f + 1) (rfind extsep f)) in Hin by lia.
    set (b := from (rfind sep f + 1) f) in *.
    set (k := Z.to_nat (rfind extsep f - (rfind sep f + 1))) in *.
    exists (take k b).
    destruct (drop k b) as [|c ext] eqn:Hd.
    + exfalso. simpl in Hin. unfold supported in Hin.
      rewrite !elem_of_cons, elem_of_nil in Hin.
      destruct Hin as [H|[H|[H|[H|[]]]]]; discriminate.
    + exists ext. rewrite <- (take_drop k b) at 1. f_equal. rewrite Hd. f_equal.
      assert (Hl : lower_char c = "."%char).
      { unfold supported in Hin. simpl in Hin.
        rewrite !elem_of_cons, elem_of_nil in Hin.
        destruct Hin as [H|[H|[H|[H|[]]]]]; injection H; auto. }
      apply (lower_char_caseless c "."%char) in Hl; [|split; vm_compute; auto].
      destruct Hl as [->|[[Hr H]|[H _]]]; [reflexivity | |]; exfalso;
        change (N_of_ascii ".") with 46%N in H; lia.
  - intros Hin. unfold supported in Hin.
    rewrite !elem_of_cons, elem_of_nil in Hin.
    destruct Hin as [H|[H|[H|[H|[]]]]]; discriminate.
Qed.

End PathFacts.

(** ** What the functions compute *)

Section Runs.

Lemma get_ref_md5_run fn w : get_ref_md5 fn w = (reference (env w) fn, w).
Proof.
  unfold get_ref_md5, reference, try_except, bind, ask, call, manifest_path, entry_for.
  destruct (read_text (env w) _) as [text|x]; simpl.
  - destruct (List.filter _ (readlines text)) as [|l ls]; simpl; [reflexivity|].
    unfold getitem. destruct (split l) as [|tok toks]; reflexivity.
  - destruct (missing_or_exhausted x); reflexivity.
Qed.

Lemma logged_logged w ps qs : logged (logged w ps) qs = logged w (ps ++ qs).
Proof. unfold logged. simpl. by rewrite app_assoc. Qed.

Lemma logged_nil w : logged w [] = w.
Proof. destruct w. unfold logged. simpl. by rewrite app_nil_r. Qed.

Lemma emit_run p w : emit p w = (Return tt, logged w [p]).
Proof. reflexivity. Qed.

Lemma get_md5_run f p w :
  exists ps, get_md5 f p w = (Return (digest (env w) f p), logged w ps).
Proof.
  unfold get_md5, digest, command, try_except, bind, print, ask, call.
  rewrite emit_run. cbn [env logged].
  change (5 * 60) with 300.
  destruct (subprocess_run (env w) _ 300) as [o|x]; cbn [env logged].
  - case_bool_decide; cbn [env logged].
    + rewrite emit_run, logged_logged. eexists. reflexivity.
    + destruct (stdout_decode o) as [text|x]; eexists; reflexivity.
  - eexists. reflexivity.
Qed.

Lemma test_run f a w :
  exists ps, test f a w = (verdict (env w) f a, logged w ps).
Proof.
  unfold test, verdict, bind. rewrite get_ref_md5_run.
  destruct (reference (env w) f) as [[[|c r]|]|x|n].
  - unfold print. rewrite emit_run. eexists. reflexivity.
  - destruct (get_md5_run f (ffmpeg_path a) w) as [ps ->].
    cbn [env logged]. case_bool_decide.
    + eexists. reflexivity.
    + unfold print. rewrite emit_run, logged_logged. eexists. reflexivity.
  - unfold print. rewrite emit_run. eexists. reflexivity.
  - exists []. by rewrite logged_nil.
  - exists []. by rewrite logged_nil.
Qed.

Lemma verdict_no_exit e f a n : verdict e f a <> Exit n.
Proof.
  unfold verdict, reference.
  destruct (read_text e _) as [text|x].
  - destruct (List.filter _ _) as [|l ?]; [discriminate|].
    destruct (split l) as [|[|c r] ?]; discriminate.
  - destruct (missing_or_exhausted x); discriminate.
Qed.

(** A reference that the lookup returns is a token: not empty and free of
    white space. *)
Lemma reference_token e fn r :
  reference e fn = Return (Some r) -> r <> [] /\ solid r.
Proof.
  unfold reference.
  destruct (read_text e _) as [text|x].
  - destruct (List.filter _ _) as [|l ?]; [discriminate|].
    pose proof (split_tokens l) as Ht.
    destruct (split l) as [|tok ?]; [discriminate|].
    intros [= <-]. by inversion Ht.
  - destruct (missing_or_exhausted x); discriminate.
Qed.

End Runs.

(** ** The claims on single files *)

Section SingleFile.

Lemma blank_not_solid_char c t : c ∈ t -> isspace c = true -> ~ solid t.
Proof.
  intros Hin Hc Ht. unfold solid in Ht. rewrite Forall_forall in Ht.
  specialize (Ht c Hin). congruence.
Qed.

Lemma space_in_prefix (lit t : str) :
  " "%char ∈ lit -> " "%char ∈ lit ++ t.
Proof. intros H. apply elem_of_app. by left. Qed.

(** The message of a time-out or of an [OSError] holds a space. *)
Lemma str_of_exn_space x :
  match x with
  | TimeoutExpired _ _ | FileNotFoundError _ _ _ | OSError _ _ _ => True
  | _ => False
  end ->
  " "%char ∈ str_of_exn x.
Proof.
  destruct x; intros []; simpl; apply list_elem_of_In; simpl; tauto.
Qed.


(** C2: for a candidate path, [get_ref_md5] returns nothing when the
    manifest does not exist and when no line of it ends with two spaces,
    the base name and a line feed; otherwise it returns the first
    white-space-delimited token of the first such line; in every case the
    world is left as it was. *)
Theorem get_ref_md5_spec (fn : str) (w : world) :
  is_candidiate fn = true ->
  let name := basename fn in
  let manifest := read_text (env w) (join (dirname fn) (s "md5.txt")) in
  (forall n m p, manifest = Fails (FileNotFoundError n m p) ->
     get_ref_md5 fn w = (Return None, w))
  /\ (forall text, manifest = Ok text ->
        Forall (fun l => ~ exists p, l = p ++ s "  " ++ name ++ [LF])
               (readlines text) ->
        get_ref_md5 fn w = (Return None, w))
  /\ (forall text before l after p, manifest = Ok text ->
        readlines text = before ++ l :: after ->
        Forall (fun l' => ~ exists p', l' = p' ++ s "  " ++ name ++ [LF]) before ->
        l = p ++ s "  " ++ name ++ [LF] ->
        exists tok, first_token l tok
                    /\ get_ref_md5 fn w = (Return (Some tok), w))
  /\ snd (get_ref_md5 fn w) = w.
Proof.
  intros Hcand name manifest. subst name manifest.
  rewrite get_ref_md5_run. unfold reference, manifest_path.
  assert (Hno : forall ls,
    Forall (fun l => ~ exists p, l = p ++ s "  " ++ basename fn ++ [LF]) ls ->
    List.filter (entry_for (basename fn)) ls = []).
  { induction 1 as [|l ls Hl _ IH]; simpl; [reflexivity|].
    destruct (entry_for (basename fn) l) eqn:He; [|exact IH].
    apply endswith_spec in He. contradiction. }
  split; [|split; [|split]].
  - intros n m p ->. reflexivity.
  - intros text -> Hall. by rewrite Hno.
  - intros text before l after p -> Hlines Hbefore Hl.
    rewrite Hlines, List.filter_app, (Hno before Hbefore). simpl.
    assert (He : entry_for (basename fn) l = true).
    { apply endswith_spec. eauto. }
    rewrite He.
    destruct (split l) as [|tok toks] eqn:Hs.
    + exfalso. apply split_nil_blank in Hs.
      destruct (candidate_basename fn Hcand) as (stem & ext & Hb).
      unfold blank in Hs. rewrite Forall_forall in Hs.
      assert (Hdot : isspace "."%char = true); [|discriminate Hdot].
      apply Hs. subst l. rewrite Hb.
      rewrite !elem_of_app. right. right. left. right.
      apply elem_of_cons. by left.
    + exists tok. split; [|reflexivity].
      eapply split_head_first_token, Hs.
  - reflexivity.
Qed.

Lemma digest_nonzero e f p o :
  subprocess_run e (split (command p f)) 300 = Ok o ->
  returncode o <> 0 -> digest e f p = [].
Proof. unfold digest. intros -> H. by rewrite bool_decide_eq_true_2. Qed.

Lemma digest_failure_not_token e f p r :
  decoder_failure (subprocess_run e (split (command p f)) 300) ->
  r <> [] -> solid r -> digest e f p <> r.
Proof.
  unfold digest. intros Hfail Hne Hr.
  inversion Hfail as [o Hrc Ho|c t Ho|n m q Ho|n m q Ho].
  - rewrite bool_decide_eq_true_2 by exact Hrc. congruence.
  - intros <-.
    eapply (blank_not_solid_char " "%char); [|reflexivity|exact Hr].
    by apply str_of_exn_space.
  - intros <-.
    eapply (blank_not_solid_char " "%char); [|reflexivity|exact Hr].
    by apply str_of_exn_space.
  - intros <-.
    eapply (blank_not_solid_char " "%char); [|reflexivity|exact Hr].
    by apply str_of_exn_space.
Qed.

Lemma verdict_failure e f a r :
  reference e f = Return (Some r) ->
  digest e f (ffmpeg_path a) <> r ->
  verdict e f a = Return FAILED.
Proof.
  intros Hl Hd. unfold verdict. rewrite Hl.
  destruct (reference_token e f r Hl) as [Hne _].
  destruct r as [|c r]; [congruence|].
  rewrite bool_decide_eq_false_2; [reflexivity | congruence].
Qed.

(** C4: when the reference is present and the decoder invocation fails
    (exit status not zero, time-out, or an error launching the process),
    [get_md5] still returns, the string it returns differs from the
    reference, and [test] returns FAILED instead of raising. *)
Theorem failed_invocation_is_FAILED (f : str) (a : args) (w : world) (r : str) :
  fst (get_ref_md5 f w) = Return (Some r) ->
  decoder_failure
    (subprocess_run (env w) (split (command (ffmpeg_path a) f)) (5 * 60)) ->
  (exists md5, fst (get_md5 f (ffmpeg_path a) w) = Return md5 /\ md5 <> r)
  /\ fst (test f a w) = Return FAILED.
Proof.
  rewrite get_ref_md5_run. cbn [fst]. intros Hl Hfail.
  destruct (reference_token _ _ _ Hl) as [Hne Hr].
  pose proof (digest_failure_not_token _ _ _ _ Hfail Hne Hr) as Hd.
  split.
  - destruct (get_md5_run f (ffmpeg_path a) w) as [ps ->]. eauto.
  - destruct (test_run f a w) as [ps ->]. cbn [fst].
    by apply verdict_failure with r.
Qed.

(** C9: a decoder that exits with a status other than zero makes
    [get_md5] return the empty string; a checksum returned by
    [get_ref_md5] is a token, not empty and free of white space; so such
    an exit, for a file with a reference, ends in FAILED. *)
Theorem nonzero_exit_is_FAILED (f : str) (a : args) (w : world) (o : CompletedProcess) :
  subprocess_run (env w) (split (command (ffmpeg_path a) f)) (5 * 60) = Ok o ->
  returncode o <> 0 ->
  fst (get_md5 f (ffmpeg_path a) w) = Return []
  /\ (forall r, fst (get_ref_md5 f w) = Return (Some r) ->
        r <> [] /\ solid r /\ fst (test f a w) = Return FAILED).
Proof.
  intros Ho Hrc.
  pose proof (digest_nonzero _ _ _ _ Ho Hrc) as Hd.
  split.
  - destruct (get_md5_run f (ffmpeg_path a) w) as [ps ->]. cbn [fst].
    by rewrite Hd.
  - intros r. rewrite get_ref_md5_run. cbn [fst]. intros Hl.
    destruct (reference_token _ _ _ Hl) as [Hne Hr].
    repeat split; auto.
    destruct (test_run f a w) as [ps ->]. cbn [fst].
    apply verdict_failure with r; [exact Hl | rewrite Hd; congruence].
Qed.

(** *** The digest taken from the decoder's output *)

Lemma hexdigit_plain c :
  hexdigit c = true -> isspace c = false /\ c <> "M"%char.
Proof.
  unfold hexdigit, isspace. intros H.
  assert (Hn : (48 <= N_of_ascii c <= 57 \/ 65 <= N_of_ascii c <= 70
                \/ 97 <= N_of_ascii c <= 102)%N).
  { repeat (apply orb_true_iff in H as [H|H]);
      apply andb_true_iff in H as [H1 H2]; apply N.leb_le in H1, H2; lia. }
  split.
  - repeat (apply orb_false_iff; split);
      rewrite ?andb_false_iff, ?N.leb_gt, ?N.eqb_neq; lia.
  - intros ->. change (N_of_ascii "M") with 77%N in Hn. lia.
Qed.

Lemma blank_no_M ws : blank ws -> "M"%char ∉ ws.
Proof.
  intros H Hin. unfold blank in H. rewrite Forall_forall in H.
  specialize (H _ Hin). discriminate.
Qed.

(** C5, as the code has it: after an exit with status zero [get_md5]
    returns the decoder's output with every occurrence of [MD5=] met by a
    scan from the left removed, then trimmed; for an output made of
    [MD5=], hexadecimal digits and white space around them, that is
    exactly the digits. *)
Theorem get_md5_success (f p : str) (w : world) (o : CompletedProcess) (text : str) :
  subprocess_run (env w) (split (command p f)) (5 * 60) = Ok o ->
  returncode o = 0 ->
  stdout_decode o = Ok text ->
  fst (get_md5 f p w) = Return (strip (remove (s "MD5=") text))
  /\ (forall t1 t2, text = t1 ++ s "MD5=" ++ t2 -> "M"%char ∉ t1 ->
        remove (s "MD5=") text = t1 ++ remove (s "MD5=") t2)
  /\ (forall ws1 hex ws2,
        text = ws1 ++ s "MD5=" ++ hex ++ ws2 ->
        blank ws1 -> blank ws2 -> Forall (fun c => hexdigit c = true) hex ->
        fst (get_md5 f p w) = Return hex).
Proof.
  intros Ho Hrc Htext.
  assert (Hrun : fst (get_md5 f p w) = Return (strip (remove (s "MD5=") text))).
  { destruct (get_md5_run f p w) as [ps ->]. cbn [fst]. unfold digest.
    change (5 * 60) with 300 in Ho. rewrite Ho.
    rewrite bool_decide_eq_false_2 by (intros ?; congruence).
    by rewrite Htext. }
  assert (Hocc : forall t1 t2, "M"%char ∉ t1 ->
            remove (s "MD5=") (t1 ++ s "MD5=" ++ t2) = t1 ++ remove (s "MD5=") t2).
  { intros t1 t2 Ht1.
    change (s "MD5=") with ("M"%char :: s "D5=") at 1 3.
    rewrite remove_without_head by exact Ht1.
    change ("M"%char :: s "D5=") with (s "MD5=").
    by rewrite remove_occurrence. }
  split; [exact Hrun|]. split.
  - intros t1 t2 -> Ht1. by apply Hocc.
  - intros ws1 hex ws2 -> H1 H2 Hhex. rewrite Hrun. f_equal.
    rewrite Hocc by (by apply blank_no_M).
    assert (Hplain : "M"%char ∉ hex ++ ws2).
    { rewrite elem_of_app. intros [Hin|Hin].
      - rewrite Forall_forall in Hhex.
        destruct (hexdigit_plain _ (Hhex _ Hin)) as [_ HM]. congruence.
      - by apply blank_no_M in Hin. }
    rewrite <- (app_nil_r (hex ++ ws2)).
    change (s "MD5=") with ("M"%char :: s "D5=").
    rewrite remove_without_head by exact Hplain.
    rewrite remove_nil, app_nil_r.
    apply strip_padded; auto.
    unfold solid. eapply Forall_impl; [exact Hhex|].
    intros c Hc. by destruct (hexdigit_plain c Hc).
Qed.

(** C6: [is_candidiate] holds exactly when the extension that [splitext]
    gives equals one of .bin, .bit, .vvc, .266 up to the case of its
    letters. *)
Theorem is_candidiate_iff (f : str) :
  is_candidiate f = true <->
  exists e, e ∈ supported /\ equal_ignoring_case (snd (splitext f)) e.
Proof.
  rewrite is_candidiate_unfold, bool_decide_eq_true.
  pose proof supported_small as Hsmall. rewrite Forall_forall in Hsmall.
  split.
  - intros Hin. exists (lower (snd (splitext f))). split; [exact Hin|].
    apply lower_caseless; [apply Hsmall, Hin | reflexivity].
  - intros (e & Hin & Heq).
    apply lower_caseless in Heq; [|apply Hsmall, Hin]. by rewrite Heq.
Qed.

(** C10: a line matches only if it ends with a line feed; so when the
    manifest ends with a line that has none, and no line before it
    matches, the lookup returns nothing and [test] returns SKIPPED,
    whatever that last line holds. *)
Theorem unterminated_last_line (fn : str) (a : args) (w : world) (body tail : str) :
  read_text (env w) (join (dirname fn) (s "md5.txt")) = Ok (body ++ tail) ->
  body = [] \/ last body = Some LF ->
  LF ∉ tail ->
  Forall (fun l => ~ exists p, l = p ++ s "  " ++ basename fn ++ [LF])
         (readlines body) ->
  (forall l p, l = p ++ s "  " ++ basename fn ++ [LF] -> last l = Some LF)
  /\ fst (get_ref_md5 fn w) = Return None
  /\ fst (test fn a w) = Return SKIPPED.
Proof.
  intros Hread Hbody Htail Hnone.
  split.
  { intros l p ->. rewrite !app_assoc. apply last_snoc. }
  assert (Hl : reference (env w) fn = Return None).
  { unfold reference, manifest_path. rewrite Hread.
    assert (Hlines : exists ls, readlines (body ++ tail) = readlines body ++ ls
                                /\ Forall (fun l => LF ∉ l) ls).
    { destruct tail as [|c tail'].
      - exists []. rewrite !app_nil_r. split; [reflexivity | constructor].
      - exists [c :: tail']. split; [|repeat constructor; exact Htail].
        assert (Hr : readlines (c :: tail') = [c :: tail']).
        { apply readlines_no_LF; [discriminate | exact Htail]. }
        destruct Hbody as [->|Hlast]; [exact Hr|].
        apply last_Some in Hlast as [b ->].
        rewrite readlines_app_LF. f_equal. exact Hr. }
    destruct Hlines as (ls & -> & Hls).
    rewrite List.filter_app.
    assert (H1 : List.filter (entry_for (basename fn)) (readlines body) = []).
    { induction Hnone as [|l ls' Hl _ IH]; simpl; [reflexivity|].
      destruct (entry_for (basename fn) l) eqn:He; [|exact IH].
      apply endswith_spec in He. contradiction. }
    assert (H2 : List.filter (entry_for (basename fn)) ls = []).
    { induction Hls as [|l ls' Hl _ IH]; simpl; [reflexivity|].
      destruct (entry_for (basename fn) l) eqn:He; [|exact IH].
      exfalso. apply Hl. unfold entry_for in He.
      rewrite app_assoc in He. apply endswith_last in He.
      eapply list_elem_of_lookup_2. rewrite <- last_lookup. exact He. }
    by rewrite H1, H2. }
  split.
  - by rewrite get_ref_md5_run.
  - destruct (test_run fn a w) as [ps ->]. cbn [fst].
    unfold verdict. by rewrite Hl.
Qed.

End SingleFile.

(** ** Directory mode *)

Section Directory.

Lemma submit_run fn a w :
  submit fn a w = (Return {| fut_result := verdict (env w) fn a |}, w).
Proof.
  unfold submit. destruct (test_run fn a w) as [ps ->]. reflexivity.
Qed.

Lemma submit_files_of_run root files a d w :
  submit_files_of root files a d w =
  (Return (d ++ map (task (env w) a) (files_of (root, @nil str, files))), w).
Proof.
  revert d. induction files as [|f files IH]; intros d; simpl.
  - unfold ret. by rewrite app_nil_r.
  - destruct (is_candidiate (join root f)) eqn:Hc; simpl.
    + unfold bind. rewrite submit_run, IH. simpl.
      by rewrite <- app_assoc.
    + apply IH.
Qed.

Lemma submit_walk_run triples a d w :
  submit_walk triples a d w =
  (Return (d ++ map (task (env w) a) (flat_map files_of triples)), w).
Proof.
  revert d. induction triples as [|[[root dirs] files] triples IH]; intros d; simpl.
  - unfold ret. by rewrite app_nil_r.
  - unfold bind. rewrite submit_files_of_run, IH.
    by rewrite map_app, app_assoc.
Qed.

Lemma submmit_files_run path a w :
  submmit_files path a w =
  (Return (map (task (env w) a) (dispatched (env w) path)), w).
Proof.
  unfold submmit_files, bind, ask. by rewrite submit_walk_run.
Qed.

Lemma tally_Permutation o l l' : l ≡ₚ l' -> tally o l = tally o l'.
Proof.
  induction 1; simpl; try lia.
Qed.

Lemma tally_bounds l :
  0 <= tally PASSED l /\ 0 <= tally FAILED l /\ 0 <= tally SKIPPED l.
Proof.
  induction l as [|item l IH]; simpl; [lia|].
  repeat split; destruct (returned _ item); lia.
Qed.

Lemma returned_sum item :
  (if returned PASSED item then 1 else 0)
  + (if returned FAILED item then 1 else 0)
  + (if returned SKIPPED item then 1 else 0)
  = if gave_outcome item then 1 else 0.
Proof.
  unfold returned, gave_outcome.
  destruct (fut_result (fst item)) as [[]|x|n]; repeat case_bool_decide;
    try discriminate; try congruence; reflexivity.
Qed.

(** The three tallies together count the tasks that gave an outcome. *)
Lemma tally_sum l :
  tally PASSED l + tally FAILED l + tally SKIPPED l
  = Z.of_nat (length (List.filter gave_outcome l)).
Proof.
  induction l as [|item l IH]; [reflexivity|].
  cbn [tally List.filter]. pose proof (returned_sum item) as Hi.
  destruct (gave_outcome item); cbn [length]; lia.
Qed.

Lemma tally_all_returned l :
  Forall (fun item => gave_outcome item = true) l ->
  tally PASSED l + tally FAILED l + tally SKIPPED l = Z.of_nat (length l).
Proof.
  intros H. rewrite tally_sum. do 2 f_equal.
  induction H as [|item l Hi _ IH]; simpl; [reflexivity|].
  rewrite Hi. by f_equal.
Qed.


Lemma task_no_exit e a item n : fut_result (fst (task e a item)) <> Exit n.
Proof. apply verdict_no_exit. Qed.

(** One turn of the loop adds one to the count of the outcome, or prints
    the exception and counts nothing. *)
Lemma collect_run item w p f k sp sf sk :
  count w = [p; f; k] -> summary w = [sp; sf; sk] ->
  (forall n, fut_result (fst item) <> Exit n) ->
  exists w',
    collect item w = (Return tt, w') /\ env w' = env w
    /\ count w' = [p + (if returned PASSED item then 1 else 0);
                   f + (if returned FAILED item then 1 else 0);
                   k + (if returned SKIPPED item then 1 else 0)]
    /\ exists sp' sf' sk', summary w' = [sp'; sf'; sk'].
Proof.
  intros Hc Hs Hne. destruct item as [fut name].
  destruct w as [e cons cnt sm]. simpl in Hc, Hs. subst cnt sm.
  unfold collect, returned. cbn [fst] in *.
  destruct (fut_result fut) as [o|x|n].
  - destruct o; eexists; (split; [reflexivity|]); simpl;
      rewrite ?Z.add_0_r; repeat split; eauto.
  - eexists. split; [reflexivity|].
    simpl. rewrite !Z.add_0_r. eauto 10.
  - by destruct (Hne n).
Qed.

Lemma collect_all l w p f k sp sf sk :
  count w = [p; f; k] -> summary w = [sp; sf; sk] ->
  Forall (fun item => forall n, fut_result (fst item) <> Exit n) l ->
  exists w',
    for_each l collect w = (Return tt, w') /\ env w' = env w
    /\ count w' = [p + tally PASSED l; f + tally FAILED l; k + tally SKIPPED l]
    /\ exists sp' sf' sk', summary w' = [sp'; sf'; sk'].
Proof.
  intros Hc Hs Hl. revert w p f k sp sf sk Hc Hs.
  induction Hl as [|item l Hi _ IH]; intros w p f k sp sf sk Hc Hs.
  - exists w. simpl. rewrite !Z.add_0_r. eauto 10.
  - destruct (collect_run item w _ _ _ _ _ _ Hc Hs Hi)
      as (w1 & Hrun & He1 & Hc1 & sp1 & sf1 & sk1 & Hs1).
    destruct (IH w1 _ _ _ _ _ _ Hc1 Hs1)
      as (w2 & Hrun2 & He2 & Hc2 & Hs2).
    exists w2. cbn [for_each]. unfold bind. rewrite Hrun, Hrun2.
    split; [reflexivity|]. split; [congruence|]. split; [|exact Hs2].
    rewrite Hc2. cbn [tally]. f_equal; [|f_equal; [|f_equal]]; lia.
Qed.

Lemma print_run t w : print t w = (Return tt, logged w [Out t]).
Proof. reflexivity. Qed.

Lemma print_each_run (files : list str) w :
  exists ps, for_each files (fun f => print (s "    " ++ f)) w
             = (Return tt, logged w ps).
Proof.
  revert w. induction files as [|f files IH]; intros w; cbn [for_each].
  - exists []. unfold ret. by rewrite logged_nil.
  - unfold bind. rewrite print_run.
    destruct (IH (logged w [Out (s "    " ++ f)])) as [ps ->].
    rewrite logged_logged. eauto.
Qed.

Lemma print_files_run name files w :
  exists ps, print_files name files w = (Return tt, logged w ps).
Proof.
  unfold print_files. case_bool_decide.
  - unfold bind. rewrite print_run.
    destruct (print_each_run files (logged w [Out (name ++ s " files:")])) as [ps ->].
    rewrite logged_logged. eauto.
  - exists []. unfold ret. by rewrite logged_nil.
Qed.

Lemma print_summary_run w p f k sp sf sk :
  count w = [p; f; k] -> summary w = [sp; sf; sk] ->
  exists ps, print_summary w = (Return tt, logged w ps).
Proof.
  intros Hc Hs. unfold print_summary, bind, get_summary, get_count, getitem.
  rewrite !print_run, !logged_logged. cbn [summary count logged].
  rewrite Hs. cbn [index base.lookup list_lookup ret].
  match goal with |- context [print_files (s "failed") sf ?w0] =>
    destruct (print_files_run (s "failed") sf w0) as [ps1 ->] end.
  rewrite logged_logged.
  match goal with |- context [print_files (s "skipped") sk ?w0] =>
    destruct (print_files_run (s "skipped") sk w0) as [ps2 ->] end.
  rewrite logged_logged.
  match goal with |- context [print_files (s "passed") sp ?w0] =>
    destruct (print_files_run (s "passed") sp w0) as [ps3 ->] end.
  rewrite !print_run, !logged_logged. cbn [summary count logged].
  rewrite Hc. cbn [index base.lookup list_lookup ret].
  rewrite !print_run, !logged_logged. eauto.
Qed.

Lemma test_dir_run path a w p f k sp sf sk :
  0 < threads a ->
  (forall l, as_completed (env w) l ≡ₚ l) ->
  count w = [p; f; k] -> summary w = [sp; sf; sk] ->
  let tasks := map (task (env w) a) (dispatched (env w) path) in
  exists w',
    test_dir path a w = (Exit (f + tally FAILED tasks), w')
    /\ env w' = env w
    /\ count w' = [p + tally PASSED tasks; f + tally FAILED tasks;
                   k + tally SKIPPED tasks].
Proof.
  intros Hthreads Hperm Hc Hs tasks.
  unfold test_dir, ThreadPoolExecutor.
  rewrite bool_decide_eq_false_2 by lia.
  unfold bind at 1. unfold ret at 1.
  unfold bind at 1. rewrite submmit_files_run. fold tasks.
  unfold bind at 1. unfold ask at 1.
  assert (Hne : Forall (fun item => forall n, fut_result (fst item) <> Exit n)
                       (as_completed (env w) tasks)).
  { rewrite (Hperm tasks). unfold tasks. apply Forall_forall.
    intros item (x & -> & _)%list_elem_of_fmap n. apply task_no_exit. }
  destruct (collect_all _ w _ _ _ _ _ _ Hc Hs Hne)
    as (w1 & Hrun & He1 & Hc1 & sp1 & sf1 & sk1 & Hs1).
  unfold bind at 1. rewrite Hrun.
  destruct (print_summary_run w1 _ _ _ _ _ _ Hc1 Hs1) as [ps Hps].
  unfold bind at 1. rewrite Hps.
  unfold bind, get_count, getitem. cbn [count logged].
  rewrite Hc1. cbn [index base.lookup list_lookup ret].
  rewrite !(tally_Permutation _ _ _ (Hperm tasks)) in Hc1.
  rewrite !(tally_Permutation _ _ _ (Hperm tasks)).
  eexists. split; [reflexivity|]. cbn [env count logged]. split; [exact He1|].
  exact Hc1.
Qed.

End Directory.

(** ** The claims on whole runs *)

Section WholeRuns.

Lemma python_directory c e p :
  cli_ffmpeg_path c = Some p ->
  isfile e (cli_test_path c) = false ->
  python c e = test_dir (cli_test_path c) (args_of c p) (boot e).
Proof.
  intros Hp Hf. unfold python, main. rewrite Hp.
  unfold bind, ask. cbn [env boot test_path]. by rewrite Hf.
Qed.

Lemma python_directory_run c e p :
  cli_ffmpeg_path c = Some p ->
  isfile e (cli_test_path c) = false ->
  0 < cli_threads c ->
  (forall l, as_completed e l ≡ₚ l) ->
  let tasks := map (task e (args_of c p)) (dispatched e (cli_test_path c)) in
  fst (submmit_files (cli_test_path c) (args_of c p) (boot e)) = Return tasks
  /\ fst (python c e) = Exit (tally FAILED tasks)
  /\ count (snd (python c e))
     = [tally PASSED tasks; tally FAILED tasks; tally SKIPPED tasks].
Proof.
  intros Hp Hf Ht Hperm tasks.
  rewrite (python_directory c e p Hp Hf), submmit_files_run.
  destruct (test_dir_run (cli_test_path c) (args_of c p) (boot e) 0 0 0 [] [] [])
    as (w' & Hrun & _ & Hcount); auto.
  cbn [env boot] in Hrun, Hcount. rewrite Hrun. cbn [fst snd].
  rewrite Hcount. auto.
Qed.

(** C3, as the code has it: in directory mode one future is made for
    every candidate file, and at the end of the run the three counts add
    up to the number of futures that gave an outcome; a future that
    raised is counted nowhere, so the sum is the number of files
    dispatched when no task raises. *)
Theorem directory_counts (c : cli) (e : environment) (p : str) :
  cli_ffmpeg_path c = Some p ->
  isfile e (cli_test_path c) = false ->
  0 < cli_threads c ->
  (forall l, as_completed e l ≡ₚ l) ->
  exists future_to_file,
    fst (submmit_files (cli_test_path c) (args_of c p) (boot e))
      = Return future_to_file
    /\ length future_to_file = length (dispatched e (cli_test_path c))
    /\ total (snd (python c e))
       = Z.of_nat (length (List.filter gave_outcome future_to_file))
    /\ (Forall (fun item => gave_outcome item = true) future_to_file ->
        total (snd (python c e)) = Z.of_nat (length future_to_file)).
Proof.
  intros Hp Hf Ht Hperm.
  destruct (python_directory_run c e p Hp Hf Ht Hperm) as (Hsub & _ & Hcount).
  eexists. split; [exact Hsub|]. split; [apply length_map|].
  unfold total. rewrite Hcount. cbn [foldr]. rewrite Z.add_0_r, Z.add_assoc.
  split.
  - apply tally_sum.
  - apply tally_all_returned.
Qed.


(** C8, as the code has it: in single-file mode [test] runs once on the
    file named on the command line, whatever its extension; its outcome
    only chooses the line printed afterwards, and the script then ends
    normally. *)
Theorem single_file_mode (c : cli) (e : environment) (p : str) :
  cli_ffmpeg_path c = Some p ->
  isfile e (cli_test_path c) = true ->
  let path := cli_test_path c in
  exists ps,
    test path (args_of c p) (boot e)
      = (verdict e path (args_of c p), logged (boot e) ps)
    /\ python c e =
       match verdict e path (args_of c p) with
       | Return o =>
           (Return tt,
            logged (boot e)
              (ps ++ [Out (if bool_decide (o = PASSED)
                           then basename path ++ s " passed"
                           else s " failed")]))
       | Raise x => (Raise x, logged (boot e) ps)
       | Exit n => (Exit n, logged (boot e) ps)
       end.
Proof.
  intros Hp Hf path.
  destruct (test_run path (args_of c p) (boot e)) as [ps Hrun].
  exists ps. split; [exact Hrun|].
  unfold python, main. rewrite Hp.
  unfold bind at 1. unfold ask at 1. cbn [env boot test_path].
  rewrite Hf. fold (args_of c p). fold path.
  unfold bind at 1. unfold test_file. unfold bind at 1. rewrite Hrun.
  cbn [env boot].
  destruct (verdict e path (args_of c p)) as [o|x|n]; [|reflexivity|reflexivity].
  unfold bind. rewrite print_run, logged_logged. reflexivity.
Qed.

End WholeRuns.

(** ** Runs of the samples *)

Section Scenarios.

Example classifier_samples :
  map is_candidiate
      [s "FILE.BIN"; s "d/a.Bit"; s "a.b.266"; s "x.vvc";
       s "a.mp4"; s "README"; s ".bin"; s "x.bin/y"; s "..vvc"]
  = [true; true; true; true; false; false; false; false; false].
Proof. reflexivity. Qed.

Example splitext_samples :
  splitext (s "d/clip1.bin") = (s "d/clip1", s ".bin")
  /\ splitext (s "d.x/clip") = (s "d.x/clip", [])
  /\ splitext (s "d/.bin") = (s "d/.bin", []).
Proof. repeat split; reflexivity. Qed.

Example manifest_path_samples :
  manifest_path (s "d/clip1.bin") = s "d/md5.txt"
  /\ manifest_path (s "clip1.bin") = s "md5.txt"
  /\ manifest_path (s "/clip1.bin") = s "/md5.txt".
Proof. repeat split; reflexivity. Qed.

(** Scenario A: the digests agree. *)
Example scenario_passed :
  fst (test (s "d/clip1.bin") ffmpeg (boot passing)) = Return PASSED.
Proof. reflexivity. Qed.

(** Scenario B: the digests differ, and both are printed. *)
Example scenario_failed :
  fst (test (s "d/clip1.bin") ffmpeg (boot mismatching)) = Return FAILED
  /\ console (snd (test (s "d/clip1.bin") ffmpeg (boot mismatching)))
     = [Out (s "ffmpeg -i d/clip1.bin -vsync 0 -f md5 -");
        Out (s "md5 mismatch ref = abc123 md5 = def456")].
Proof. split; reflexivity. Qed.

(** A directory with one file of each outcome and two files that are not
    candidates. *)
Example scenario_mixed :
  fst (python directory_run mixed) = Exit 1
  /\ count (snd (python directory_run mixed)) = [1; 1; 1]
  /\ summary (snd (python directory_run mixed))
     = [[s "a.bin"]; [s "b.BIT"]; [s "c.vvc"]]
  /\ last (console (snd (python directory_run mixed)))
     = Some (Out (s "----------")).
Proof. repeat split; reflexivity. Qed.

Example timeout_message :
  str_of_exn (TimeoutExpired (s "['ffmpeg', '-i', 'x.bin']") 300)
  = s "Command '['ffmpeg', '-i', 'x.bin']' timed out after 300 seconds".
Proof. reflexivity. Qed.

End Scenarios.

(** ** The theorems at the samples *)

Section Witnesses.

Lemma not_entry name l :
  entry_for name l = false -> ~ exists p, l = p ++ s "  " ++ name ++ [LF].
Proof.
  intros He Hex. apply endswith_spec in Hex. unfold entry_for in He. congruence.
Qed.

Lemma rev_completion (l : list (future * str)) : rev l ≡ₚ l.
Proof. symmetry. apply Permutation_rev. Qed.


Lemma get_ref_md5_spec_witness :
  is_candidiate (s "d/clip1.bin") = true
  /\ (exists tok, first_token one_line tok
                  /\ get_ref_md5 (s "d/clip1.bin") (boot passing)
                     = (Return (Some tok), boot passing))
  /\ snd (get_ref_md5 (s "d/clip1.bin") (boot passing)) = boot passing.
Proof.
  split; [reflexivity|].
  destruct (get_ref_md5_spec (s "d/clip1.bin") (boot passing) eq_refl)
    as (_ & _ & Hfound & Hsame).
  split; [|exact Hsame].
  apply (Hfound one_line [] one_line [] (s "abc123")).
  - reflexivity.
  - reflexivity.
  - constructor.
  - reflexivity.
Defined.

Lemma failed_invocation_is_FAILED_witness :
  fst (get_ref_md5 (s "d/clip1.bin") (boot crashing)) = Return (Some (s "abc123"))
  /\ decoder_failure
       (subprocess_run (env (boot crashing))
          (split (command (ffmpeg_path ffmpeg) (s "d/clip1.bin"))) (5 * 60))
  /\ (exists md5,
        fst (get_md5 (s "d/clip1.bin") (ffmpeg_path ffmpeg) (boot crashing))
          = Return md5 /\ md5 <> s "abc123")
  /\ fst (test (s "d/clip1.bin") ffmpeg (boot crashing)) = Return FAILED.
Proof.
  assert (H : decoder_failure
       (subprocess_run (env (boot crashing))
          (split (command (ffmpeg_path ffmpeg) (s "d/clip1.bin"))) (5 * 60))).
  { apply nonzero_exit. simpl. lia. }
  split; [reflexivity|]. split; [exact H|].
  apply (failed_invocation_is_FAILED (s "d/clip1.bin") ffmpeg (boot crashing));
    [reflexivity | exact H].
Defined.

Lemma nonzero_exit_is_FAILED_witness :
  subprocess_run (env (boot crashing))
    (split (command (ffmpeg_path ffmpeg) (s "d/clip1.bin"))) (5 * 60)
    = decoder_exits 1
  /\ 1 <> 0
  /\ fst (get_md5 (s "d/clip1.bin") (ffmpeg_path ffmpeg) (boot crashing)) = Return []
  /\ (forall r,
        fst (get_ref_md5 (s "d/clip1.bin") (boot crashing)) = Return (Some r) ->
        r <> [] /\ solid r
        /\ fst (test (s "d/clip1.bin") ffmpeg (boot crashing)) = Return FAILED).
Proof.
  split; [reflexivity|]. split; [lia|].
  apply (nonzero_exit_is_FAILED (s "d/clip1.bin") ffmpeg (boot crashing)
           {| returncode := 1; stdout_decode := Ok []; stderr := s "Invalid data" |});
    [reflexivity | simpl; lia].
Defined.

Lemma get_md5_success_witness :
  subprocess_run (env (boot passing))
    (split (command (s "ffmpeg") (s "d/clip1.bin"))) (5 * 60)
    = decoder_prints (s "MD5=abc123" ++ [LF])
  /\ fst (get_md5 (s "d/clip1.bin") (s "ffmpeg") (boot passing))
     = Return (s "abc123").
Proof.
  split; [reflexivity|].
  destruct (get_md5_success (s "d/clip1.bin") (s "ffmpeg") (boot passing)
              {| returncode := 0; stdout_decode := Ok (s "MD5=abc123" ++ [LF]);
                 stderr := [] |}
              (s "MD5=abc123" ++ [LF]) eq_refl eq_refl eq_refl) as (_ & _ & H).
  apply (H [] (s "abc123") [LF]); [reflexivity | constructor | | ];
    repeat constructor.
Defined.

Lemma unterminated_last_line_witness :
  read_text (env (boot unterminated)) (join (dirname (s "d/clip1.bin")) (s "md5.txt"))
    = Ok ((s "ffff  other.bin" ++ [LF]) ++ s "abc123  clip1.bin")
  /\ fst (get_ref_md5 (s "d/clip1.bin") (boot unterminated)) = Return None
  /\ fst (test (s "d/clip1.bin") ffmpeg (boot unterminated)) = Return SKIPPED.
Proof.
  split; [reflexivity|].
  apply (unterminated_last_line (s "d/clip1.bin") ffmpeg (boot unterminated)
           (s "ffff  other.bin" ++ [LF]) (s "abc123  clip1.bin")).
  - reflexivity.
  - right. reflexivity.
  - intros H. apply list_elem_of_In in H. simpl in H.
    repeat (destruct H as [H|H]; [discriminate H|]). exact H.
  - repeat constructor. apply not_entry. reflexivity.
Defined.

Lemma directory_counts_witness :
  cli_ffmpeg_path directory_run = Some (s "ffmpeg")
  /\ isfile mixed (cli_test_path directory_run) = false
  /\ 0 < cli_threads directory_run
  /\ exists future_to_file,
       fst (submmit_files (cli_test_path directory_run)
              (args_of directory_run (s "ffmpeg")) (boot mixed))
         = Return future_to_file
       /\ length future_to_file = length (dispatched mixed (cli_test_path directory_run))
       /\ total (snd (python directory_run mixed))
          = Z.of_nat (length (List.filter gave_outcome future_to_file))
       /\ (Forall (fun item => gave_outcome item = true) future_to_file ->
           total (snd (python directory_run mixed))
           = Z.of_nat (length future_to_file)).
Proof.
  split; [reflexivity|]. split; [reflexivity|]. split; [reflexivity|].
  apply (directory_counts directory_run mixed (s "ffmpeg"));
    [reflexivity | reflexivity | reflexivity | exact rev_completion].
Defined.


Lemma single_file_mode_witness :
  cli_ffmpeg_path movie_run = Some (s "ffmpeg")
  /\ isfile movie (cli_test_path movie_run) = true
  /\ exists ps,
       test (s "clip.mp4") (args_of movie_run (s "ffmpeg")) (boot movie)
         = (verdict movie (s "clip.mp4") (args_of movie_run (s "ffmpeg")),
            logged (boot movie) ps)
       /\ python movie_run movie =
          match verdict movie (s "clip.mp4") (args_of movie_run (s "ffmpeg")) with
          | Return o =>
              (Return tt,
               logged (boot movie)
                 (ps ++ [Out (if bool_decide (o = PASSED)
                              then basename (s "clip.mp4") ++ s " passed"
                              else s " failed")]))
          | Raise x => (Raise x, logged (boot movie) ps)
          | Exit n => (Exit n, logged (boot movie) ps)
          end.
Proof.
  split; [reflexivity|]. split; [reflexivity|].
  apply (single_file_mode movie_run movie (s "ffmpeg")); reflexivity.
Defined.

End Witnesses.

(** ** Where the code departs from the specification *)

Section Departures.

(** C3: a task whose manifest cannot be read raises; the run goes on, the
    file is dispatched but lands in no count. *)
Lemma raised_task_is_not_counted :
  length (dispatched denied (s "d")) = 1%nat
  /\ fst (python directory_run denied) = Exit 0
  /\ count (snd (python directory_run denied)) = [0; 0; 0]
  /\ total (snd (python directory_run denied))
     <> Z.of_nat (length (dispatched denied (s "d"))).
Proof. vm_compute. repeat split; discriminate. Qed.

(** C5: an [MD5=] inside the output goes as well, not only the leading
    one. *)
Lemma inner_prefix_is_removed :
  fst (get_md5 (s "d/clip1.bin") (s "ffmpeg") (boot repeating)) = Return (s "abcd")
  /\ leading_prefix_stripped (s "MD5=abMD5=cd" ++ [LF]) = s "abMD5=cd"
  /\ fst (get_md5 (s "d/clip1.bin") (s "ffmpeg") (boot repeating))
     <> Return (leading_prefix_stripped (s "MD5=abMD5=cd" ++ [LF])).
Proof. vm_compute. repeat split; discriminate. Qed.

(** C8: a single file outside the allow-list is tested all the same. *)
Lemma single_file_is_not_classified :
  is_candidiate (s "clip.mp4") = false
  /\ fst (test (s "clip.mp4") (args_of movie_run (s "ffmpeg")) (boot movie))
     = Return PASSED
  /\ console (snd (python movie_run movie))
     = [Out (s "ffmpeg -i clip.mp4 -vsync 0 -f md5 -"); Out (s "clip.mp4 passed")]
  /\ console (snd (test_file_after_classifier (s "clip.mp4")
                     (args_of movie_run (s "ffmpeg")) (boot movie))) = []
  /\ console (snd (python movie_run movie))
     <> console (snd (test_file_after_classifier (s "clip.mp4")
                        (args_of movie_run (s "ffmpeg")) (boot movie))).
Proof. vm_compute. repeat split; discriminate. Qed.

End Departures.

(** * Further properties of the script *)

(** ** The manifest *)

Section Manifest.

Implicit Types (t tok name other : str) (c : ascii).

Lemma split_solid_head tok c rest :
  tok <> [] -> solid tok -> isspace c = true ->
  split (tok ++ c :: rest) = tok :: split rest.
Proof.
  intros Hne Htok Hc. induction Htok as [|a tok Ha Htok IH]; [congruence|].
  destruct tok as [|b tok'].
  - simpl. by rewrite Ha, Hc.
  - inversion Htok as [|? ? Hb _]; subst.
    specialize (IH ltac:(discriminate)).
    simpl in IH |- *. rewrite Ha, Hb. rewrite Hb in IH.
    destruct (tok' ++ c :: rest) as [|d t'] eqn:Ht.
    + destruct tok'; discriminate.
    + rewrite IH. reflexivity.
Qed.

Lemma last_separator_unique c (a b x y : str) :
  a ++ c :: x = b ++ c :: y -> c ∉ x -> c ∉ y -> x = y.
Proof.
  revert b. induction a as [|u a IH]; intros [|v b] Heq Hx Hy; simpl in Heq.
  - congruence.
  - injection Heq as -> ->. exfalso. apply Hx.
    apply elem_of_app. right. apply elem_of_cons. by left.
  - injection Heq as -> <-. exfalso. apply Hy.
    apply elem_of_app. right. apply elem_of_cons. by left.
  - injection Heq as _ Heq. by apply (IH b).
Qed.

Lemma same_name_line tok other name :
  " "%char ∉ other -> " "%char ∉ name ->
  endswith (tok ++ s "  " ++ other ++ [LF]) (s "  " ++ name ++ [LF]) = true
  <-> other = name.
Proof.
  intros Ho Hn. split.
  - intros [p Hp]%endswith_spec.
    assert (H : ((tok ++ [" "%char]) ++ " "%char :: other) ++ [LF]
                = ((p ++ [" "%char]) ++ " "%char :: name) ++ [LF]).
    { rewrite <- !app_assoc. simpl. exact Hp. }
    apply app_inj_tail in H as [H _].
    eapply last_separator_unique; eauto.
  - intros ->. apply endswith_spec. exists tok. reflexivity.
Qed.

(** X2: the test of [get_ref_md5] on a line tells file names apart: the
    line of [other] answers the lookup of [name] only when the two names
    are the same, even if one is the end of the other. *)
Theorem entry_for_same_name (tok other name : str) :
  " "%char ∉ other -> " "%char ∉ name ->
  endswith (tok ++ s "  " ++ other ++ [LF]) (s "  " ++ name ++ [LF]) = true
  <-> other = name.
Proof.
  intros Ho Hn. split.
  - intros H. by apply (same_name_line tok other name Ho Hn).
  - intros H. by apply (same_name_line tok other name Ho Hn).
Qed.

Lemma readlines_single body :
  LF ∉ body -> readlines (body ++ [LF]) = [body ++ [LF]].
Proof.
  induction body as [|c body IH]; intros Hb; [reflexivity|].
  apply not_elem_of_cons in Hb as [Hc Hb]. simpl.
  rewrite bool_decide_eq_false_2 by congruence.
  rewrite IH by exact Hb. reflexivity.
Qed.

Lemma readlines_one_line body t :
  LF ∉ body -> readlines ((body ++ [LF]) ++ t) = (body ++ [LF]) :: readlines t.
Proof.
  intros Hb. rewrite readlines_app_LF, readlines_single by exact Hb. reflexivity.
Qed.

Lemma solid_no_char c tok : isspace c = true -> solid tok -> c ∉ tok.
Proof.
  intros Hc Htok Hin. unfold solid in Htok. rewrite Forall_forall in Htok.
  specialize (Htok c Hin). congruence.
Qed.

Lemma readlines_manifest_text entries :
  Forall well_formed_entry entries ->
  readlines (manifest_text entries) = map manifest_line entries.
Proof.
  unfold manifest_text. induction 1 as [|[tok name] entries Hw _ IH]; [reflexivity|].
  destruct Hw as (_ & Htok & _ & Hname). cbn [fst snd] in *.
  cbn [map concat].
  assert (Hline : manifest_line (tok, name) = (tok ++ s "  " ++ name) ++ [LF]).
  { unfold manifest_line. cbn [fst snd]. by rewrite <- !app_assoc. }
  rewrite Hline, readlines_one_line.
  - by rewrite IH.
  - rewrite !not_elem_of_app. repeat split.
    + apply solid_no_char; [reflexivity | exact Htok].
    + intros H. apply list_elem_of_In in H. simpl in H.
      destruct H as [H|[H|[]]]; discriminate.
    + exact Hname.
Qed.

(** X1: writing a manifest and looking a file up in it: for a manifest whose
    entries are well formed, [get_ref_md5] returns the checksum of the
    first entry that carries the base name of the file, and nothing when
    there is none. *)
Theorem get_ref_md5_recorded (fn : str) (w : world) (entries : list (str * str)) :
  read_text (env w) (join (dirname fn) (s "md5.txt")) = Ok (manifest_text entries) ->
  Forall well_formed_entry entries ->
  " "%char ∉ basename fn ->
  get_ref_md5 fn w = (Return (recorded (basename fn) entries), w).
Proof.
  intros Hread Hwf Hname.
  rewrite get_ref_md5_run. f_equal.
  unfold reference, manifest_path. rewrite Hread.
  rewrite readlines_manifest_text by exact Hwf. clear Hread.
  induction Hwf as [|[tok name] entries Hw _ IH]; [reflexivity|].
  destruct Hw as (Hne & Htok & Hsp & _). cbn [fst snd] in *.
  cbn [map List.filter recorded fst snd].
  assert (He : entry_for (basename fn) (manifest_line (tok, name))
               = bool_decide (name = basename fn)).
  { unfold entry_for, manifest_line. cbn [fst snd].
    case_bool_decide as Hsame.
    - by apply same_name_line.
    - apply not_true_is_false. intros He.
      apply same_name_line in He; auto. }
  rewrite He. case_bool_decide as Hsame; [|exact IH].
  unfold manifest_line. cbn [fst snd].
  change (s "  " ++ name ++ [LF]) with (" "%char :: (" "%char :: name ++ [LF])).
  rewrite split_solid_head by auto. reflexivity.
Qed.

End Manifest.

(** ** One file: the lookup, the decoder and the verdict *)

Section OneFile.

Implicit Types (t u tok : str) (c : ascii).

Lemma candidate_line_has_token fn l :
  is_candidiate fn = true ->
  entry_for (basename fn) l = true -> split l <> [].
Proof.
  intros Hcand [p ->]%endswith_spec Hs.
  apply split_nil_blank in Hs.
  destruct (candidate_basename fn Hcand) as (stem & ext & Hb).
  unfold blank in Hs. rewrite Forall_forall in Hs.
  assert (Hdot : isspace "."%char = true); [|discriminate Hdot].
  apply Hs. rewrite Hb.
  rewrite !elem_of_app. right. right. left. right.
  apply elem_of_cons. by left.
Qed.

(** X3: what makes a task raise: for a candidate file [test] raises exactly
    the exception that reading the manifest raises, unless that one is a
    [FileNotFoundError] (or [StopIteration]); it never leaves the
    interpreter. *)
Theorem test_raises_iff (f : str) (a : args) (w : world) (x : exn) :
  is_candidiate f = true ->
  (fst (test f a w) = Raise x
   <-> read_text (env w) (join (dirname f) (s "md5.txt")) = Fails x
       /\ missing_or_exhausted x = false)
  /\ (forall n, fst (test f a w) <> Exit n).
Proof.
  intros Hcand. destruct (test_run f a w) as [ps ->]. cbn [fst].
  split; [|intros n; apply verdict_no_exit].
  unfold verdict, reference, manifest_path.
  destruct (read_text (env w) _) as [text|y].
  - split; [|intros [? _]; discriminate].
    destruct (List.filter _ _) as [|l ls] eqn:Hf; [discriminate|].
    assert (Hl : entry_for (basename f) l = true).
    { assert (Hin : In l (List.filter (entry_for (basename f)) (readlines text)))
        by (rewrite Hf; by left).
      by apply filter_In in Hin as [_ ?]. }
    pose proof (candidate_line_has_token f l Hcand Hl) as Hne.
    destruct (split l) as [|[|c r] ?]; [congruence | discriminate | discriminate].
  - destruct (missing_or_exhausted y) eqn:Hy.
    + split; [discriminate|]. intros [[= ->] ?]. congruence.
    + split; [intros [= ->]; auto | intros [[= ->] _]; reflexivity].
Qed.

(** X4: the steps of [test]: without a reference one line is printed and the
    decoder is not started; with one, [get_md5] runs once, and a
    difference adds one line that shows both strings. *)
Theorem test_steps (f : str) (a : args) (w : world) (ref : option str) :
  fst (get_ref_md5 f w) = Return ref ->
  match ref with
  | None =>
      test f a w
      = (Return SKIPPED, logged w [Out (basename f ++ s " has no ref md5")])
  | Some r =>
      exists md5 ps,
        get_md5 f (ffmpeg_path a) w = (Return md5, logged w ps)
        /\ test f a w
           = if bool_decide (r = md5) then (Return PASSED, logged w ps)
             else (Return FAILED,
                   logged w (ps ++ [Out (s "md5 mismatch ref = " ++ r
                                         ++ s " md5 = " ++ md5)]))
  end.
Proof.
  rewrite get_ref_md5_run. cbn [fst]. intros Href.
  unfold test, bind. rewrite get_ref_md5_run, Href.
  destruct ref as [r|]; [|reflexivity].
  destruct (reference_token _ _ _ Href) as [Hne _].
  destruct r as [|c r]; [congruence|].
  destruct (get_md5_run f (ffmpeg_path a) w) as [ps Hrun].
  exists (digest (env w) f (ffmpeg_path a)), ps. split; [exact Hrun|].
  rewrite Hrun.
  destruct (decide (c :: r = digest (env w) f (ffmpeg_path a))) as [He|He].
  - rewrite !bool_decide_eq_true_2 by exact He. reflexivity.
  - rewrite !bool_decide_eq_false_2 by exact He.
    rewrite print_run, logged_logged. reflexivity.
Qed.

(** X5: [get_md5] never raises: the command line is printed first, and
    whatever [subprocess.run] or the decoding of the output raises comes
    back as the message of the exception, with nothing more printed; a
    status other than zero prints the decoder's standard error. *)
Theorem get_md5_never_raises (f p : str) (w : world) :
  exists md5 ps,
    get_md5 f p w
    = (Return md5,
       logged w (Out (p ++ s " -i " ++ f ++ s " -vsync 0 -f md5 -") :: ps))
    /\ (forall x,
          subprocess_run (env w)
            (split (p ++ s " -i " ++ f ++ s " -vsync 0 -f md5 -")) (5 * 60)
          = Fails x ->
          md5 = str_of_exn x /\ ps = [])
    /\ (forall o,
          subprocess_run (env w)
            (split (p ++ s " -i " ++ f ++ s " -vsync 0 -f md5 -")) (5 * 60)
          = Ok o ->
          (returncode o <> 0 -> md5 = [] /\ ps = [OutBytes (stderr o)])
          /\ (forall x, returncode o = 0 -> stdout_decode o = Fails x ->
                md5 = str_of_exn x /\ ps = [])).
Proof.
  unfold get_md5, try_except, bind, ask, call.
  rewrite print_run. cbn [env logged].
  destruct (subprocess_run (env w) _ (5 * 60)) as [o|x] eqn:Hrun; cbn [env logged].
  - case_bool_decide as Hrc; cbn [env logged].
    + rewrite emit_run, logged_logged. eexists _, _. split; [reflexivity|].
      split; [discriminate|]. intros o' [= <-]. split; [auto|].
      intros x Hz. congruence.
    + destruct (stdout_decode o) as [text|x] eqn:Hdec; cbn [env logged].
      * eexists _, []. split; [reflexivity|].
        split; [discriminate|]. intros o' [= <-]. split; [intros; congruence|].
        intros x _ Hx. congruence.
      * eexists _, []. split; [reflexivity|].
        split; [discriminate|]. intros o' [= <-]. split; [intros; congruence|].
        intros x' _ Hx. rewrite Hdec in Hx. injection Hx as <-. auto.
  - eexists _, []. split; [reflexivity|]. split.
    + intros x' [= <-]. auto.
    + discriminate.
Qed.

Lemma split_cons_blank c t : isspace c = true -> split (c :: t) = split t.
Proof. intros Hc. simpl. by rewrite Hc. Qed.

Lemma split_cons_solid c t :
  isspace c = false ->
  split (c :: t)
  = match t with
    | [] => [[c]]
    | d :: _ =>
        if isspace d then [c] :: split t
        else match split t with
             | w :: ws => (c :: w) :: ws
             | [] => [[c]]
             end
    end.
Proof. intros Hc. simpl. by rewrite Hc. Qed.

Lemma split_app_space t c u :
  isspace c = true -> split (t ++ c :: u) = split t ++ split u.
Proof.
  intros Hc. induction t as [|a t IH]; cbn [app].
  - by rewrite split_cons_blank.
  - destruct (isspace a) eqn:Ha.
    + by rewrite !split_cons_blank.
    + rewrite !split_cons_solid by exact Ha.
      destruct t as [|d t']; cbn [app] in *.
      * by rewrite Hc, split_cons_blank.
      * rewrite IH. destruct (isspace d) eqn:Hd; [reflexivity|].
        destruct (split (d :: t')) as [|w' ws] eqn:Hs; [|reflexivity].
        apply split_nil_blank in Hs. inversion Hs; congruence.
Qed.

Lemma split_solid t : t <> [] -> solid t -> split t = [t].
Proof.
  intros Hne Ht. induction Ht as [|a t Ha Ht IH]; [congruence|].
  simpl. rewrite Ha. destruct t as [|d t']; [reflexivity|].
  inversion Ht as [|? ? Hd _]; subst. rewrite Hd.
  rewrite IH by discriminate. reflexivity.
Qed.

(** X6: the argument vector of the decoder: the command string is cut at
    white space, so a decoder path and an input path without white space
    give the eight arguments [<exe> -i <input> -vsync 0 -f md5 -], while
    an input path with white space in it is passed as several
    arguments. *)
Theorem get_md5_argv (f p : str) :
  split (p ++ s " -i " ++ f ++ s " -vsync 0 -f md5 -")
  = split p ++ [s "-i"] ++ split f ++ [s "-vsync"; s "0"; s "-f"; s "md5"; s "-"]
  /\ (p <> [] -> solid p -> f <> [] -> solid f ->
      split (p ++ s " -i " ++ f ++ s " -vsync 0 -f md5 -")
      = [p; s "-i"; f; s "-vsync"; s "0"; s "-f"; s "md5"; s "-"]).
Proof.
  assert (H : split (p ++ s " -i " ++ f ++ s " -vsync 0 -f md5 -")
              = split p ++ [s "-i"] ++ split f
                ++ [s "-vsync"; s "0"; s "-f"; s "md5"; s "-"]).
  { change (s " -i " ++ f ++ s " -vsync 0 -f md5 -")
      with (" "%char :: (s "-i" ++ " "%char :: (f ++ " "%char :: s "-vsync 0 -f md5 -"))).
    rewrite !split_app_space by reflexivity. reflexivity. }
  split; [exact H|].
  intros Hp Hps Hf Hfs. rewrite H, !split_solid by assumption. reflexivity.
Qed.

End OneFile.

(** ** The report *)

Section Report.

Lemma print_each_lines (files : list str) w :
  for_each files (fun f => print (s "    " ++ f)) w
  = (Return tt, logged w (map (fun f => Out (s "    " ++ f)) files)).
Proof.
  revert w. induction files as [|f files IH]; intros w; cbn [for_each map].
  - unfold ret. by rewrite logged_nil.
  - unfold bind. rewrite print_run, IH, logged_logged. reflexivity.
Qed.

Lemma print_files_section name files w :
  print_files name files w = (Return tt, logged w (files_section name files)).
Proof.
  unfold print_files, files_section. destruct files as [|f files].
  - rewrite bool_decide_eq_false_2 by (simpl; lia).
    unfold ret. by rewrite logged_nil.
  - rewrite bool_decide_eq_true_2 by (simpl; lia).
    unfold bind. rewrite print_run, print_each_lines, logged_logged.
    reflexivity.
Qed.

(** X7: [print_files] writes nothing at all for an empty list, and otherwise
    the header [<name> files:] followed by one line per file, indented by
    four spaces, in the order of the list; it touches nothing but the
    console. *)
Theorem print_files_output (name : str) (files : list str) (w : world) :
  exists lines,
    print_files name files w = (Return tt, logged w lines)
    /\ (files = [] -> lines = [])
    /\ (files <> [] ->
        lines = Out (name ++ s " files:")
                :: map (fun f => Out (s "    " ++ f)) files).
Proof.
  exists (files_section name files). split; [apply print_files_section|].
  destruct files; split; intros; simpl; congruence.
Qed.

Lemma print_summary_report w p f k sp sf sk :
  count w = [p; f; k] -> summary w = [sp; sf; sk] ->
  print_summary w = (Return tt, logged w (report p f k sp sf sk)).
Proof.
  intros Hc Hs. unfold print_summary, bind, get_summary, get_count, getitem.
  rewrite !print_run, !logged_logged. cbn [summary count logged].
  rewrite Hs. cbn [index base.lookup list_lookup ret].
  rewrite !print_files_section, !logged_logged.
  rewrite !print_run, !logged_logged. cbn [summary count logged].
  rewrite Hc. cbn [index base.lookup list_lookup ret].
  rewrite !print_run, !logged_logged. unfold report.
  by rewrite <- !app_assoc.
Qed.

(** X8: [print_summary] writes the failed, the skipped and the passed files
    in that order, leaving out a section that is empty, then the line of
    totals whose first number is the sum of the three counts; the counts
    and the lists are left as they were. *)
Theorem print_summary_output (w : world) (p f k : Z) (sp sf sk : list str) :
  count w = [p; f; k] -> summary w = [sp; sf; sk] ->
  print_summary w
  = (Return tt,
     {| env := env w;
        console :=
          console w
          ++ [Out []; Out (s "+++++++++ report +++++++++")]
          ++ files_section (s "failed") sf
          ++ files_section (s "skipped") sk
          ++ files_section (s "passed") sp
          ++ [Out [];
              Out (s "total = " ++ str_of_int (p + f + k)
                   ++ s ", passed = " ++ str_of_int p
                   ++ s ", failed = " ++ str_of_int f
                   ++ s ", skipped = " ++ str_of_int k);
              Out (s "----------")];
        count := [p; f; k];
        summary := [sp; sf; sk] |}).
Proof.
  intros Hc Hs. rewrite (print_summary_report w p f k sp sf sk Hc Hs).
  unfold logged, report. by rewrite Hc, Hs.
Qed.

End Report.

(** ** The scan and the collection loop *)

Section Collection.

Lemma collect_full item w p f k sp sf sk :
  count w = [p; f; k] -> summary w = [sp; sf; sk] ->
  (forall n, fut_result (fst item) <> Exit n) ->
  collect item w
  = (Return tt,
     {| env := env w;
        console := console w ++ exception_lines [item];
        count := [p + tally PASSED [item]; f + tally FAILED [item];
                  k + tally SKIPPED [item]];
        summary := [sp ++ names_of PASSED [item]; sf ++ names_of FAILED [item];
                    sk ++ names_of SKIPPED [item]] |}).
Proof.
  intros Hc Hs Hne. destruct item as [[r] name].
  destruct w as [e cons cnt sm]. simpl in Hc, Hs. subst cnt sm.
  unfold collect, exception_lines, names_of, tally, returned.
  cbn [fst snd fut_result] in *.
  destruct r as [o|x|n].
  - destruct o; simpl; rewrite ?Z.add_0_r, ?app_nil_r; reflexivity.
  - simpl. rewrite ?Z.add_0_r, ?app_nil_r. reflexivity.
  - by destruct (Hne n).
Qed.

Lemma names_of_cons o item l :
  names_of o (item :: l) = names_of o [item] ++ names_of o l.
Proof.
  unfold names_of. cbn [List.filter]. destruct (returned o item); reflexivity.
Qed.

Lemma exception_lines_cons item l :
  exception_lines (item :: l) = exception_lines [item] ++ exception_lines l.
Proof.
  unfold exception_lines. destruct item as [[r] name].
  cbn [omap list_omap]. destruct r; reflexivity.
Qed.

Lemma tally_cons o item l : tally o (item :: l) = tally o [item] + tally o l.
Proof. cbn [tally]. lia. Qed.

Lemma collect_all_full l w p f k sp sf sk :
  count w = [p; f; k] -> summary w = [sp; sf; sk] ->
  Forall (fun item => forall n, fut_result (fst item) <> Exit n) l ->
  for_each l collect w
  = (Return tt,
     {| env := env w;
        console := console w ++ exception_lines l;
        count := [p + tally PASSED l; f + tally FAILED l; k + tally SKIPPED l];
        summary := [sp ++ names_of PASSED l; sf ++ names_of FAILED l;
                    sk ++ names_of SKIPPED l] |}).
Proof.
  intros Hc Hs Hl. revert w p f k sp sf sk Hc Hs.
  induction Hl as [|item l Hi _ IH]; intros w p f k sp sf sk Hc Hs.
  - destruct w. simpl in *. subst. unfold ret, names_of, exception_lines. simpl.
    by rewrite !Z.add_0_r, !app_nil_r.
  - cbn [for_each]. unfold bind.
    rewrite (collect_full item w _ _ _ _ _ _ Hc Hs Hi).
    erewrite IH; [|reflexivity|reflexivity]. cbn [env console].
    rewrite (names_of_cons PASSED item l), (names_of_cons FAILED item l),
            (names_of_cons SKIPPED item l), (exception_lines_cons item l).
    rewrite (tally_cons PASSED item l), (tally_cons FAILED item l),
            (tally_cons SKIPPED item l).
    by rewrite <- !app_assoc, !Z.add_assoc.
Qed.

(** The whole of a run in directory mode. *)
Lemma python_directory_full c e p :
  cli_ffmpeg_path c = Some p ->
  isfile e (cli_test_path c) = false ->
  0 < cli_threads c ->
  (forall l, as_completed e l ≡ₚ l) ->
  let finished :=
    as_completed e (map (task e (args_of c p)) (dispatched e (cli_test_path c))) in
  let np := tally PASSED finished in
  let nf := tally FAILED finished in
  let nk := tally SKIPPED finished in
  python c e
  = (Exit nf,
     {| env := e;
        console :=
          exception_lines finished
          ++ report np nf nk (names_of PASSED finished) (names_of FAILED finished)
                    (names_of SKIPPED finished);
        count := [np; nf; nk];
        summary := [names_of PASSED finished; names_of FAILED finished;
                    names_of SKIPPED finished] |}).
Proof.
  intros Hp Hf Ht Hperm finished np nf nk.
  rewrite (python_directory c e p Hp Hf).
  unfold test_dir, ThreadPoolExecutor.
  rewrite bool_decide_eq_false_2 by (cbn [threads args_of]; lia).
  unfold bind at 1. unfold ret at 1.
  unfold bind at 1. rewrite submmit_files_run. cbn [env boot].
  unfold bind at 1. unfold ask at 1. cbn [env boot]. fold finished.
  assert (Hne : Forall (fun item => forall n, fut_result (fst item) <> Exit n)
                       finished).
  { unfold finished. rewrite (Hperm _). apply Forall_forall.
    intros item (x & -> & _)%list_elem_of_fmap n. apply task_no_exit. }
  unfold bind at 1.
  rewrite (collect_all_full finished (boot e) 0 0 0 [] [] [] eq_refl eq_refl Hne).
  cbn [env console boot app]. rewrite !Z.add_0_l. fold np nf nk.
  unfold bind at 1.
  erewrite print_summary_report; [|reflexivity|reflexivity].
  unfold bind, get_count, getitem. cbn [count logged env console summary].
  cbn [index base.lookup list_lookup ret]. unfold sys_exit. reflexivity.
Qed.

End Collection.

(** ** Whole runs in directory mode *)

Section DirectoryRuns.

Lemma tally_names o l : tally o l = Z.of_nat (length (names_of o l)).
Proof.
  unfold names_of. rewrite length_map.
  induction l as [|item l IH]; [reflexivity|].
  cbn [tally List.filter]. destruct (returned o item); cbn [length]; lia.
Qed.

Lemma names_of_dispatched o l name :
  name ∈ names_of o l -> name ∈ map snd l.
Proof.
  unfold names_of. intros (item & -> & Hin)%list_elem_of_fmap.
  apply list_elem_of_fmap. exists item. split; [reflexivity|].
  apply list_elem_of_In. apply list_elem_of_In in Hin.
  by apply filter_In in Hin as [? _].
Qed.


(** X10: the lists of the summary and the counts agree at the end of a run in
    directory mode: [summary[o]] holds the file names of the tasks that
    returned [o], in the order in which the tasks finished, [count[o]] is
    its length, and every name in it is the name of a file that was
    dispatched. *)
Theorem directory_summary (c : cli) (e : environment) (p : str) :
  cli_ffmpeg_path c = Some p ->
  isfile e (cli_test_path c) = false ->
  0 < cli_threads c ->
  (forall l, as_completed e l ≡ₚ l) ->
  exists future_to_file,
    fst (submmit_files (cli_test_path c) (args_of c p) (boot e))
      = Return future_to_file
    /\ summary (snd (python c e))
       = [names_of PASSED (as_completed e future_to_file);
          names_of FAILED (as_completed e future_to_file);
          names_of SKIPPED (as_completed e future_to_file)]
    /\ count (snd (python c e))
       = map (fun files => Z.of_nat (length files)) (summary (snd (python c e)))
    /\ Forall (Forall (fun name => name ∈ map snd future_to_file))
              (summary (snd (python c e))).
Proof.
  intros Hp Hf Ht Hperm.
  rewrite (python_directory_full c e p Hp Hf Ht Hperm), submmit_files_run.
  cbn [env boot fst snd count summary].
  eexists. split; [reflexivity|]. split; [reflexivity|]. split.
  - cbn [map]. by rewrite !tally_names.
  - repeat constructor; apply Forall_forall; intros name Hin;
      apply names_of_dispatched in Hin; by rewrite (Hperm _) in Hin.
Qed.


(** X12: the counts and the exit status do not depend on the order in which
    the tasks finish. *)
Theorem directory_order_irrelevant (c : cli) (e : environment) (p : str)
    (order order' : list (future * str) -> list (future * str)) :
  cli_ffmpeg_path c = Some p ->
  isfile e (cli_test_path c) = false ->
  0 < cli_threads c ->
  (forall l, order l ≡ₚ l) -> (forall l, order' l ≡ₚ l) ->
  fst (python c (with_order e order)) = fst (python c (with_order e order'))
  /\ count (snd (python c (with_order e order)))
     = count (snd (python c (with_order e order'))).
Proof.
  intros Hp Hf Ht Ho Ho'.
  destruct (python_directory_run c (with_order e order) p Hp Hf Ht Ho)
    as (_ & -> & ->).
  destruct (python_directory_run c (with_order e order') p Hp Hf Ht Ho')
    as (_ & -> & ->).
  split; reflexivity.
Qed.

(** X13: without any manifest (every read raises [FileNotFoundError]) a run in
    directory mode skips every candidate and ends with exit status 0. *)
Theorem directory_without_manifests (c : cli) (e : environment) (p : str) :
  cli_ffmpeg_path c = Some p ->
  isfile e (cli_test_path c) = false ->
  0 < cli_threads c ->
  (forall l, as_completed e l ≡ₚ l) ->
  (forall path, exists n m q, read_text e path = Fails (FileNotFoundError n m q)) ->
  exit_status (fst (python c e)) = 0
  /\ count (snd (python c e))
     = [0; 0; Z.of_nat (length (dispatched e (cli_test_path c)))].
Proof.
  intros Hp Hf Ht Hperm Hnone.
  destruct (python_directory_run c e p Hp Hf Ht Hperm) as (_ & -> & ->).
  cbn [exit_status].
  generalize (dispatched e (cli_test_path c)). intros l.
  assert (H : tally PASSED (map (task e (args_of c p)) l) = 0
              /\ tally FAILED (map (task e (args_of c p)) l) = 0
              /\ tally SKIPPED (map (task e (args_of c p)) l)
                 = Z.of_nat (length l)).
  { induction l as [|item l (IH1 & IH2 & IH3)]; [auto|].
    cbn [map tally length]. unfold returned. cbn [fst task fut_result].
    unfold verdict, reference.
    destruct (Hnone (manifest_path (fst item))) as (n & m & q & ->).
    cbn [missing_or_exhausted].
    rewrite IH1, IH2, IH3.
    rewrite !bool_decide_eq_false_2 by discriminate.
    rewrite bool_decide_eq_true_2 by reflexivity. lia. }
  destruct H as (-> & -> & ->). auto.
Qed.

End DirectoryRuns.

(** ** The scan *)

Section Scan.


End Scan.

(** ** The entry points *)

Section EntryPoints.

Lemma python_single_file c e p :
  cli_ffmpeg_path c = Some p ->
  isfile e (cli_test_path c) = true ->
  exists ps,
    python c e
    = (match verdict e (cli_test_path c) (args_of c p) with
       | Return _ => Return tt
       | Raise x => Raise x
       | Exit n => Exit n
       end, logged (boot e) ps).
Proof.
  intros Hp Hf. unfold python, main. rewrite Hp.
  unfold bind at 1. unfold ask at 1. cbn [env boot test_path]. rewrite Hf.
  fold (args_of c p).
  unfold bind at 1. unfold test_file. unfold bind at 1.
  destruct (test_run (cli_test_path c) (args_of c p) (boot e)) as [ps ->].
  cbn [env boot].
  destruct (verdict e (cli_test_path c) (args_of c p)) as [o|x|n]; eauto.
Qed.

(** X14: in single-file mode the exit status does not tell the outcome: it is
    0 whenever the lookup of the reference returns, be the file passed,
    failed or skipped, and 1 only when reading the manifest raises;
    nothing is counted. *)
Theorem single_file_exit_status (c : cli) (e : environment) (p : str) :
  cli_ffmpeg_path c = Some p ->
  isfile e (cli_test_path c) = true ->
  exit_status (fst (python c e))
  = match fst (get_ref_md5 (cli_test_path c) (boot e)) with
    | Raise _ => 1
    | _ => 0
    end
  /\ count (snd (python c e)) = [0; 0; 0]
  /\ summary (snd (python c e)) = [[]; []; []].
Proof.
  intros Hp Hf. destruct (python_single_file c e p Hp Hf) as [ps ->].
  rewrite get_ref_md5_run. cbn [fst snd env boot count summary logged].
  split; [|split; reflexivity].
  pose proof (verdict_no_exit e (cli_test_path c) (args_of c p)) as Hne.
  unfold verdict in *.
  destruct (reference e (cli_test_path c)) as [[[|ch r]|]|x|n];
    try reflexivity. by destruct (Hne n).
Qed.

(** X15: [check_input] lets a vector of one or two elements through its guard:
    with two it returns the second, with the program name alone it raises
    [IndexError] instead of printing the usage; any longer vector prints
    the usage line and leaves with status 1. *)
Theorem check_input_cases (argv : list str) (w : world) :
  match argv with
  | [] => check_input argv w
          = (Raise (IndexError (s "list index out of range")), w)
  | [prog] => check_input argv w
              = (Raise (IndexError (s "list index out of range")), w)
  | [prog; path] => check_input argv w = (Return path, w)
  | prog :: _ :: _ :: _ =>
      check_input argv w
      = (Exit 1, logged w [Out (s "usage: " ++ prog ++ s " directory/file")])
  end.
Proof.
  destruct argv as [|prog [|path [|x rest]]]; try reflexivity.
Qed.

End EntryPoints.

(** ** The classifier and the file name *)

Section Classifier.

Implicit Types (t a b : str) (c : ascii).

Lemma rfind_upper_bound c t : rfind c t < Z.of_nat (length t).
Proof.
  induction t as [|x t IH]; simpl length; simpl rfind; [lia|].
  destruct (0 <=? rfind c t) eqn:H; [lia|].
  case_bool_decide; lia.
Qed.

Lemma rfind_app c a b :
  rfind c (a ++ b)
  = if 0 <=? rfind c b then Z.of_nat (length a) + rfind c b else rfind c a.
Proof.
  pose proof (rfind_lower_bound c b) as Hb.
  induction a as [|x a IH].
  - simpl. destruct (0 <=? rfind c b) eqn:H; [lia|].
    apply Z.leb_gt in H. lia.
  - change ((x :: a) ++ b) with (x :: (a ++ b)).
    cbn [rfind length]. rewrite IH.
    destruct (0 <=? rfind c b) eqn:H.
    + apply Z.leb_le in H.
      rewrite (proj2 (Z.leb_le 0 (Z.of_nat (length a) + rfind c b))) by lia. lia.
    + reflexivity.
Qed.

Lemma rfind_absent c t : c ∉ t -> rfind c t = -1.
Proof.
  induction t as [|x t IH]; [reflexivity|].
  intros [Hx Ht]%not_elem_of_cons. simpl. rewrite (IH Ht). simpl.
  rewrite bool_decide_eq_false_2 by congruence. reflexivity.
Qed.

Lemma slice_take_drop i j t :
  0 <= i <= j -> slice i j t = take (Z.to_nat (j - i)) (from i t).
Proof.
  intros H. unfold slice, from, upto. rewrite take_drop_commute. do 2 f_equal. lia.
Qed.

(** X16: a candidate is named [<stem><ext>]: the extension is one of the four
    up to case, and the stem holds a character that is not a dot; so a
    file called [.bin] or [..vvc] is not a candidate. *)
Theorem candidate_name_shape (f : str) :
  is_candidiate f = true ->
  exists stem ext,
    basename f = stem ++ ext
    /\ lower ext ∈ supported
    /\ exists c, c ∈ stem /\ c <> "."%char.
Proof.
  rewrite is_candidiate_unfold, bool_decide_eq_true.
  unfold splitext, basename.
  pose proof (rfind_lower_bound sep f) as Hsep.
  destruct ((rfind sep f <? rfind extsep f) && _) eqn:Hc; cbn [snd].
  - apply andb_true_iff in Hc as [Hlt%Z.ltb_lt Hex].
    intros Hin.
    rewrite slice_take_drop in Hex by lia.
    rewrite (from_from (rfind sep f + 1) (rfind extsep f)) in Hin by lia.
    set (b := from (rfind sep f + 1) f) in *.
    set (k := Z.to_nat (rfind extsep f - (rfind sep f + 1))) in *.
    exists (take k b), (drop k b). split; [symmetry; apply take_drop|].
    split; [exact Hin|].
    apply existsb_exists in Hex as (ch & Hch & Hnd).
    exists ch. split; [by apply list_elem_of_In|].
    apply negb_true_iff, bool_decide_eq_false in Hnd. exact Hnd.
  - intros Hin. unfold supported in Hin.
    rewrite !elem_of_cons, elem_of_nil in Hin.
    destruct Hin as [H|[H|[H|[H|[]]]]]; discriminate.
Qed.

Lemma splitext_under_directory x f :
  sep ∉ f -> snd (splitext ((x ++ [sep]) ++ f)) = snd (splitext f).
Proof.
  intros Hf. unfold splitext.
  pose proof (rfind_absent sep f Hf) as Hsf.
  assert (Hsp : rfind sep ((x ++ [sep]) ++ f) = Z.of_nat (length x)).
  { rewrite rfind_app, Hsf. change (0 <=? -1) with false. cbv iota.
    rewrite rfind_app. change (rfind sep [sep]) with 0.
    change (0 <=? 0) with true. cbv iota. lia. }
  rewrite Hsp, Hsf.
  pose proof (rfind_lower_bound extsep f) as Hlo.
  rewrite (rfind_app extsep (x ++ [sep]) f).
  destruct (0 <=? rfind extsep f) eqn:Hd.
  - apply Z.leb_le in Hd.
    set (d := rfind extsep f) in *.
    assert (Hlen : length (x ++ [sep]) = S (length x))
      by (rewrite length_app; simpl; lia).
    rewrite Hlen.
    rewrite (proj2 (Z.ltb_lt (Z.of_nat (length x)) (Z.of_nat (S (length x)) + d)))
      by lia.
    rewrite (proj2 (Z.ltb_lt (-1) d)) by lia.
    rewrite !slice_take_drop by lia.
    assert (Hfrom : forall i, 0 <= i ->
              from (Z.of_nat (S (length x)) + i) ((x ++ [sep]) ++ f) = from i f).
    { intros i Hi. unfold from.
      replace (Z.to_nat (Z.of_nat (S (length x)) + i))
        with (length (x ++ [sep]) + Z.to_nat i)%nat by (rewrite Hlen; lia).
      apply drop_app_add. }
    replace (Z.of_nat (length x) + 1) with (Z.of_nat (S (length x)) + 0) by lia.
    rewrite !Hfrom by lia.
    replace (Z.of_nat (S (length x)) + d - (Z.of_nat (S (length x)) + 0))
      with (d - (-1 + 1)) by lia.
    simpl (-1 + 1).
    destruct (existsb _ _); reflexivity.
  - apply Z.leb_gt in Hd.
    assert (Hup : rfind extsep (x ++ [sep]) <= Z.of_nat (length x)).
    { rewrite rfind_app. change (rfind extsep [sep]) with (-1).
      change (0 <=? -1) with false. cbv iota.
      pose proof (rfind_upper_bound extsep x). lia. }
    rewrite (proj2 (Z.ltb_ge _ _)) by lia.
    rewrite (proj2 (Z.ltb_ge (-1) (rfind extsep f))) by lia.
    reflexivity.
Qed.

(** X17: whether a file is a candidate depends on its name alone, not on the
    directory it is found in. *)
Theorem is_candidiate_join (root f : str) :
  sep ∉ f -> is_candidiate (join root f) = is_candidiate f.
Proof.
  intros Hf. rewrite !is_candidiate_unfold.
  assert (Hs : snd (splitext (join root f)) = snd (splitext f)); [|by rewrite Hs].
  unfold join.
  assert (Hstart : startswith f [sep] = false).
  { apply not_true_is_false. intros [r ->]%startswith_spec.
    apply Hf. apply elem_of_cons. by left. }
  rewrite Hstart.
  destruct (decide (root = [])) as [Hroot|Hroot].
  - rewrite bool_decide_eq_true_2 by exact Hroot. by rewrite Hroot.
  - rewrite bool_decide_eq_false_2 by exact Hroot.
    cbn [orb]. destruct (endswith root [sep]) eqn:He.
    + apply endswith_spec in He as [x ->]. by apply splitext_under_directory.
    + rewrite app_assoc. by apply splitext_under_directory.
Qed.

End Classifier.

(** ** The further properties at the samples *)

Section MoreWitnesses.

Local Ltac absent :=
  let H := fresh in
  intros H; apply list_elem_of_In in H; simpl in H;
  repeat (destruct H as [H|H]; [discriminate H|]); exact H.

Lemma entry_for_same_name_witness :
  (" "%char ∉ s "xclip1.bin") /\ (" "%char ∉ s "clip1.bin")
  /\ (endswith (s "ffff" ++ s "  " ++ s "xclip1.bin" ++ [LF])
               (s "  " ++ s "clip1.bin" ++ [LF]) = true
      <-> s "xclip1.bin" = s "clip1.bin").
Proof.
  assert (H1 : " "%char ∉ s "xclip1.bin") by absent.
  assert (H2 : " "%char ∉ s "clip1.bin") by absent.
  split; [exact H1|]. split; [exact H2|].
  apply (entry_for_same_name (s "ffff") (s "xclip1.bin") (s "clip1.bin") H1 H2).
Defined.

Lemma get_ref_md5_recorded_witness :
  read_text (env (boot suffixes)) (join (dirname (s "d/clip1.bin")) (s "md5.txt"))
    = Ok (manifest_text two_names)
  /\ Forall well_formed_entry two_names
  /\ (" "%char ∉ basename (s "d/clip1.bin"))
  /\ get_ref_md5 (s "d/clip1.bin") (boot suffixes)
     = (Return (Some (s "abc123")), boot suffixes).
Proof.
  assert (H1 : Forall well_formed_entry two_names).
  { repeat constructor; try discriminate; try absent. }
  assert (H2 : " "%char ∉ basename (s "d/clip1.bin")) by absent.
  split; [reflexivity|]. split; [exact H1|]. split; [exact H2|].
  apply (get_ref_md5_recorded (s "d/clip1.bin") (boot suffixes) two_names
           eq_refl H1 H2).
Defined.

Lemma test_raises_iff_witness :
  is_candidiate (s "d/clip1.bin") = true
  /\ fst (test (s "d/clip1.bin") ffmpeg (boot denied)) = Raise permission_denied.
Proof.
  split; [reflexivity|].
  apply (test_raises_iff (s "d/clip1.bin") ffmpeg (boot denied) permission_denied
           eq_refl).
  split; reflexivity.
Defined.

Lemma test_steps_witness :
  fst (get_ref_md5 (s "d/clip1.bin") (boot mismatching)) = Return (Some (s "abc123"))
  /\ exists md5 ps,
       get_md5 (s "d/clip1.bin") (ffmpeg_path ffmpeg) (boot mismatching)
         = (Return md5, logged (boot mismatching) ps)
       /\ test (s "d/clip1.bin") ffmpeg (boot mismatching)
          = if bool_decide (s "abc123" = md5)
            then (Return PASSED, logged (boot mismatching) ps)
            else (Return FAILED,
                  logged (boot mismatching)
                    (ps ++ [Out (s "md5 mismatch ref = " ++ s "abc123"
                                 ++ s " md5 = " ++ md5)])).
Proof.
  split; [reflexivity|].
  apply (test_steps (s "d/clip1.bin") ffmpeg (boot mismatching)
           (Some (s "abc123")) eq_refl).
Defined.

Lemma print_summary_output_witness :
  count collected = [1; 2; 0]
  /\ summary collected = [[s "a.bin"]; [s "b.bit"; s "c.vvc"]; []]
  /\ console (snd (print_summary collected))
     = [Out []; Out (s "+++++++++ report +++++++++");
        Out (s "failed files:"); Out (s "    b.bit"); Out (s "    c.vvc");
        Out (s "passed files:"); Out (s "    a.bin");
        Out []; Out (s "total = 3, passed = 1, failed = 2, skipped = 0");
        Out (s "----------")].
Proof.
  split; [reflexivity|]. split; [reflexivity|].
  rewrite (print_summary_output collected 1 2 0
             [s "a.bin"] [s "b.bit"; s "c.vvc"] [] eq_refl eq_refl).
  reflexivity.
Defined.

Lemma directory_summary_witness :
  cli_ffmpeg_path directory_run = Some (s "ffmpeg")
  /\ isfile mixed (cli_test_path directory_run) = false
  /\ 0 < cli_threads directory_run
  /\ exists future_to_file,
       fst (submmit_files (cli_test_path directory_run)
              (args_of directory_run (s "ffmpeg")) (boot mixed))
         = Return future_to_file
       /\ summary (snd (python directory_run mixed))
          = [names_of PASSED (as_completed mixed future_to_file);
             names_of FAILED (as_completed mixed future_to_file);
             names_of SKIPPED (as_completed mixed future_to_file)]
       /\ count (snd (python directory_run mixed))
          = map (fun files => Z.of_nat (length files))
                (summary (snd (python directory_run mixed)))
       /\ Forall (Forall (fun name => name ∈ map snd future_to_file))
                 (summary (snd (python directory_run mixed))).
Proof.
  split; [reflexivity|]. split; [reflexivity|]. split; [reflexivity|].
  apply (directory_summary directory_run mixed (s "ffmpeg"));
    [reflexivity | reflexivity | reflexivity | exact rev_completion].
Defined.


Lemma directory_order_irrelevant_witness :
  cli_ffmpeg_path directory_run = Some (s "ffmpeg")
  /\ isfile mixed (cli_test_path directory_run) = false
  /\ 0 < cli_threads directory_run
  /\ fst (python directory_run (with_order mixed (fun l => rev l)))
     = fst (python directory_run (with_order mixed (fun l => l)))
  /\ count (snd (python directory_run (with_order mixed (fun l => rev l))))
     = count (snd (python directory_run (with_order mixed (fun l => l)))).
Proof.
  split; [reflexivity|]. split; [reflexivity|]. split; [reflexivity|].
  apply (directory_order_irrelevant directory_run mixed (s "ffmpeg")
           (fun l => rev l) (fun l => l));
    [reflexivity | reflexivity | reflexivity | exact rev_completion
    | intros l; reflexivity].
Defined.

Lemma directory_without_manifests_witness :
  cli_ffmpeg_path directory_run = Some (s "ffmpeg")
  /\ isfile bare (cli_test_path directory_run) = false
  /\ 0 < cli_threads directory_run
  /\ exit_status (fst (python directory_run bare)) = 0
  /\ count (snd (python directory_run bare))
     = [0; 0; Z.of_nat (length (dispatched bare (cli_test_path directory_run)))].
Proof.
  split; [reflexivity|]. split; [reflexivity|]. split; [reflexivity|].
  apply (directory_without_manifests directory_run bare (s "ffmpeg"));
    [reflexivity | reflexivity | reflexivity | exact rev_completion |].
  intros path. eexists _, _, _. reflexivity.
Defined.

Lemma single_file_exit_status_witness :
  cli_ffmpeg_path movie_run = Some (s "ffmpeg")
  /\ isfile movie (cli_test_path movie_run) = true
  /\ exit_status (fst (python movie_run movie))
     = match fst (get_ref_md5 (cli_test_path movie_run) (boot movie)) with
       | Raise _ => 1
       | _ => 0
       end
  /\ count (snd (python movie_run movie)) = [0; 0; 0]
  /\ summary (snd (python movie_run movie)) = [[]; []; []].
Proof.
  split; [reflexivity|]. split; [reflexivity|].
  apply (single_file_exit_status movie_run movie (s "ffmpeg")); reflexivity.
Defined.

Lemma candidate_name_shape_witness :
  is_candidiate (s "d/clip1.BIN") = true
  /\ exists stem ext,
       basename (s "d/clip1.BIN") = stem ++ ext
       /\ lower ext ∈ supported
       /\ exists c, c ∈ stem /\ c <> "."%char.
Proof.
  split; [reflexivity|].
  apply (candidate_name_shape (s "d/clip1.BIN")). reflexivity.
Defined.

Lemma is_candidiate_join_witness :
  (sep ∉ s "clip1.bin")
  /\ is_candidiate (join (s "a/b.c") (s "clip1.bin")) = is_candidiate (s "clip1.bin").
Proof.
  assert (H : sep ∉ s "clip1.bin") by absent.
  split; [exact H|].
  apply (is_candidiate_join (s "a/b.c") (s "clip1.bin") H).
Defined.

End MoreWitnesses.
